(** * Email_generator: a shallow embedding of [server/server.py]

    The server registers three tools and one prompt with an MCP framework:
    [send_email], [find_email_by_name_and_company], [find_email_by_linkedin]
    and [generate_email_prompt].  This development embeds the Python source
    function by function and proves properties of the embedding.

    Conventions.
    - A Python [str] is represented by the [string] of its UTF-8 bytes (a
      lone surrogate, which has no UTF-8 form, by the three bytes of the
      generalised form).  All the characters the program inspects ([&], [<],
      [>], the two quotes and the line feed) are ASCII, so replacing them
      byte-wise is replacing them code-point-wise.
    - [bytes] are [list byte].
    - A dict whose keys are strings is a [gmap string _].
    - A call that may raise returns an [Outcome]; code that touches the
      outside world threads a [State] (files, environment, module globals and
      the trace of external events). *)

From Stdlib Require Import ZArith NArith Ascii String List Lia DecimalString.
From Stdlib.Strings Require Import Byte.
From stdpp Require Import base gmap strings list.

Local Open Scope Z_scope.

(* ===================================================================== *)
(** * Python strings *)
(* ===================================================================== *)

Module PyStr.

(** Characters the program names. *)
Definition LF : ascii := Ascii.ascii_of_N 10.
Definition CR : ascii := Ascii.ascii_of_N 13.
Definition DQUOTE : ascii := Ascii.ascii_of_N 34.
Definition SQUOTE : ascii := Ascii.ascii_of_N 39.

(** [s.replace(old, new)] where [old] is one character, which is the only
    form the program and [html.escape] use. *)
Fixpoint replace (old : ascii) (new : string) (s : string) : string :=
  match s with
  | EmptyString => EmptyString
  | String c s' =>
      if Ascii.eqb c old then new +:+ replace old new s'
      else String c (replace old new s')
  end.

(** Number of occurrences of character [c] in [s]. *)
Fixpoint count_char (c : ascii) (s : string) : nat :=
  match s with
  | EmptyString => O
  | String d s' => ((if Ascii.eqb d c then 1 else 0) + count_char c s')%nat
  end.

(** [starts_with pat s]: [s.startswith(pat)]. *)
Fixpoint starts_with (pat s : string) : bool :=
  match pat, s with
  | EmptyString, _ => true
  | String _ _, EmptyString => false
  | String a pat', String b s' => Ascii.eqb a b && starts_with pat' s'
  end.

(** Number of positions of [s] at which [pat] occurs. *)
Fixpoint occurrences (pat s : string) : nat :=
  match s with
  | EmptyString => O
  | String _ s' => ((if starts_with pat s then 1 else 0) + occurrences pat s')%nat
  end.

(** [needle in hay] for two strings. *)
Fixpoint contains (needle hay : string) : bool :=
  starts_with needle hay ||
  match hay with
  | EmptyString => false
  | String _ hay' => contains needle hay'
  end.

(** [s + c] for one character [c]. *)
Definition snoc (s : string) (c : ascii) : string := s +:+ String c EmptyString.

(** Truth value of a string: the empty string is falsy. *)
Definition truthy (s : string) : bool :=
  match s with EmptyString => false | String _ _ => true end.

(** [str(n)] for an integer. *)
Definition of_N (n : N) : string :=
  NilEmpty.string_of_uint (N.to_uint n).

Definition of_Z (n : Z) : string :=
  if n <? 0 then "-" +:+ of_N (Z.to_N (- n)) else of_N (Z.to_N n).

End PyStr.

(* ===================================================================== *)
(** * [html.escape] and the HTML body of the message *)
(* ===================================================================== *)

Module Html.
Import PyStr.

(** [html.escape(s)] with its default [quote=True]: five replacements in the
    library's order, the ampersand first. *)
Definition escape (s : string) : string :=
  let s := replace "&" "&amp;" s in
  let s := replace "<" "&lt;" s in
  let s := replace ">" "&gt;" s in
  let s := replace DQUOTE "&quot;" s in
  let s := replace SQUOTE "&#x27;" s in
  s.

(** Lines 100-102 of [send_email]. *)
Definition html_formatted_body (body : string) : string :=
  replace LF "<br>" (escape body).

Definition html_body (body : string) : string :=
  "<html><body>" +:+ html_formatted_body body +:+ "<br></body></html>".

(** The same, character by character: what one character of the body
    becomes in the document. *)
Definition escape_char (c : ascii) : string :=
  if Ascii.eqb c "&" then "&amp;"
  else if Ascii.eqb c "<" then "&lt;"
  else if Ascii.eqb c ">" then "&gt;"
  else if Ascii.eqb c DQUOTE then "&quot;"
  else if Ascii.eqb c SQUOTE then "&#x27;"
  else String c EmptyString.

Definition markup_char (c : ascii) : string :=
  if Ascii.eqb c LF then "<br>" else escape_char c.

(** ** What a reader of the HTML sees

    A small renderer, used to state what the document shows: a tag produces
    no text, except [<br>] which produces a line feed; the character
    references that [html.escape] emits stand for their character; any other
    character is shown as it is.  White-space collapsing is not modelled. *)

Inductive mode :=
  | Text
  | InTag (name : string)
  | InRef (name : string).

Definition tag_text (name : string) : string :=
  if String.eqb name "br" then String LF EmptyString else EmptyString.

Definition ref_text (name : string) : string :=
  if String.eqb name "amp" then "&"
  else if String.eqb name "lt" then "<"
  else if String.eqb name "gt" then ">"
  else if String.eqb name "quot" then String DQUOTE EmptyString
  else if String.eqb name "#x27" then String SQUOTE EmptyString
  else "&" +:+ name +:+ ";".

Fixpoint render (m : mode) (s : string) : string :=
  match s with
  | EmptyString =>
      match m with
      | Text => EmptyString
      | InTag _ => EmptyString
      | InRef name => "&" +:+ name
      end
  | String c s' =>
      match m with
      | Text =>
          if Ascii.eqb c "<" then render (InTag EmptyString) s'
          else if Ascii.eqb c "&" then render (InRef EmptyString) s'
          else String c (render Text s')
      | InTag name =>
          if Ascii.eqb c ">" then tag_text name +:+ render Text s'
          else render (InTag (snoc name c)) s'
      | InRef name =>
          if Ascii.eqb c ";" then ref_text name +:+ render Text s'
          else render (InRef (snoc name c)) s'
      end
  end.

Definition visible_text (html : string) : string := render Text html.


End Html.

(* ===================================================================== *)
(** * [str.splitlines] *)
(* ===================================================================== *)

Module Lines.
Import PyStr.

(** [s.splitlines()] on a [str].  The line boundaries are LF, CR, CR LF,
    VT, FF, FS, GS, RS, NEL (U+0085, bytes C2 85), LS (U+2028, bytes
    E2 80 A8) and PS (U+2029, bytes E2 80 A9).  [cur] is the line being
    read; a last line that is empty is not reported. *)
Definition single_boundary (c : ascii) : bool :=
  let n := Ascii.N_of_ascii c in
  (N.eqb n 10 || N.eqb n 11 || N.eqb n 12 || N.eqb n 28 || N.eqb n 29 || N.eqb n 30)%bool.

Definition code (c : ascii) : N := Ascii.N_of_ascii c.

Fixpoint splitlines_from (cur : string) (s : string) : list string :=
  match s with
  | EmptyString => if truthy cur then [cur] else []
  | String c s1 =>
      if single_boundary c then cur :: splitlines_from EmptyString s1
      else if N.eqb (code c) 13 then
        match s1 with
        | String d s2 =>
            if N.eqb (code d) 10 then cur :: splitlines_from EmptyString s2
            else cur :: splitlines_from EmptyString s1
        | EmptyString => cur :: splitlines_from EmptyString s1
        end
      else
        match s1 with
        | String d s2 =>
            if (N.eqb (code c) 194 && N.eqb (code d) 133)%bool
            then cur :: splitlines_from EmptyString s2
            else
              match s2 with
              | String e s3 =>
                  if (N.eqb (code c) 226 && N.eqb (code d) 128 &&
                      (N.eqb (code e) 168 || N.eqb (code e) 169))%bool
                  then cur :: splitlines_from EmptyString s3
                  else splitlines_from (snoc cur c) s1
              | EmptyString => splitlines_from (snoc cur c) s1
              end
        | EmptyString => splitlines_from (snoc cur c) s1
        end
  end.

Definition splitlines (s : string) : list string :=
  splitlines_from EmptyString s.

End Lines.

(* ===================================================================== *)
(** * Exceptions and outcomes *)
(* ===================================================================== *)

(** The exception classes the program raises, catches or can be handed by
    its libraries.  All of them derive from [Exception]. *)
Inductive exn_class :=
  | Exception_            (* any class not singled out below *)
  | GoogleHttpError       (* googleapiclient.errors.HttpError *)
  | RequestException      (* requests.exceptions.RequestException *)
  | RequestsHTTPError     (* requests.exceptions.HTTPError *)
  | OSError_
  | FileNotFoundError
  | ValueError
  | KeyError
  | TypeError
  | UnboundLocalError.

(** An exception object: its class and [str(e)]. *)
Record exn := Exn { exn_cls : exn_class; exn_str : string }.

(** [isinstance(e, C)], that is, whether [except C] catches [e]. *)
Definition is_instance (e : exn) (C : exn_class) : bool :=
  match C, exn_cls e with
  | Exception_, _ => true
  | GoogleHttpError, GoogleHttpError => true
  | RequestException, (RequestException | RequestsHTTPError) => true
  | RequestsHTTPError, RequestsHTTPError => true
  | OSError_, (OSError_ | FileNotFoundError | RequestException | RequestsHTTPError) => true
  | FileNotFoundError, FileNotFoundError => true
  | ValueError, ValueError => true
  | KeyError, KeyError => true
  | TypeError, TypeError => true
  | UnboundLocalError, UnboundLocalError => true
  | _, _ => false
  end.

Inductive Outcome (A : Type) :=
  | Return (a : A)
  | Raise (e : exn).
Arguments Return {A} a.
Arguments Raise {A} e.

(* ===================================================================== *)
(** * JSON values as Python objects *)
(* ===================================================================== *)

#[local] Set Warnings "-register-all".

(** The result of [response.json()] and of the Gmail client's [execute()]:
    [None], [bool], [int], [str], [list] and [dict] with string keys.
    (JSON numbers with a fraction are left out.) *)
Inductive json :=
  | JNull
  | JBool (b : bool)
  | JNum (n : Z)
  | JStr (s : string)
  | JArr (l : list json)
  | JObj (d : gmap string json).

Module Py.
Import PyStr.

(** Truth value of an object. *)
Definition truth (v : json) : bool :=
  match v with
  | JNull => false
  | JBool b => b
  | JNum n => negb (Z.eqb n 0)
  | JStr s => truthy s
  | JArr l => match l with [] => false | _ :: _ => true end
  | JObj d => negb (Nat.eqb (size d) 0)
  end.

(** The JSON values that are false, one by one: [None], [False], [0], the
    empty string, the empty list and the empty dict. *)
Definition falsy (v : json) : Prop :=
  v = JNull \/ v = JBool false \/ v = JNum 0 \/ v = JStr EmptyString \/
  v = JArr [] \/ v = JObj ∅.

Definition truth_opt (o : option string) : bool :=
  match o with
  | None => false
  | Some s => truthy s
  end.

Definition is_str (key : string) (v : json) : bool :=
  match v with
  | JStr s => String.eqb s key
  | _ => false
  end.

(** [key in v] for a string [key]. *)
Definition contains_key (key : string) (v : json) : Outcome bool :=
  match v with
  | JObj d => Return (match d !! key with Some _ => true | None => false end)
  | JArr l => Return (existsb (is_str key) l)
  | JStr s => Return (contains key s)
  | JNull => Raise (Exn TypeError "argument of type 'NoneType' is not iterable")
  | JBool _ => Raise (Exn TypeError "argument of type 'bool' is not iterable")
  | JNum _ => Raise (Exn TypeError "argument of type 'int' is not iterable")
  end.

(** [v[key]] for a string [key].  The message of the [KeyError] is
    [repr(key)]; the keys the program uses are plain identifiers. *)
Definition getitem (v : json) (key : string) : Outcome json :=
  match v with
  | JObj d =>
      match d !! key with
      | Some x => Return x
      | None => Raise (Exn KeyError ("'" +:+ key +:+ "'"))
      end
  | JArr _ => Raise (Exn TypeError "list indices must be integers or slices, not str")
  | JStr _ => Raise (Exn TypeError "string indices must be integers, not 'str'")
  | JNull => Raise (Exn TypeError "'NoneType' object is not subscriptable")
  | JBool _ => Raise (Exn TypeError "'bool' object is not subscriptable")
  | JNum _ => Raise (Exn TypeError "'int' object is not subscriptable")
  end.

End Py.

(* ===================================================================== *)
(** * [base64.urlsafe_b64encode] *)
(* ===================================================================== *)

Module Base64.

Definition alphabet : string :=
  "ABCDEFGHIJKLMNOPQRSTUVWXYZabcdefghijklmnopqrstuvwxyz0123456789+/".

Definition PAD : ascii := "="%char.

Definition char_of_sextet (n : Z) : ascii :=
  match String.get (Z.to_nat n) alphabet with
  | Some c => c
  | None => PAD
  end.

Fixpoint index_of (c : ascii) (s : string) : option Z :=
  match s with
  | EmptyString => None
  | String d s' =>
      if Ascii.eqb c d then Some 0
      else match index_of c s' with
           | Some i => Some (i + 1)
           | None => None
           end
  end.

Definition sextet_of_char (c : ascii) : option Z := index_of c alphabet.

Definition byte_val (b : byte) : Z := Z.of_N (Byte.to_N b).
Definition byte_of (n : Z) : option byte := Byte.of_N (Z.to_N n).

(** [base64.b64encode]: three bytes become four characters; one or two
    trailing bytes are padded with [=]. *)
Fixpoint b64encode (data : list byte) : string :=
  match data with
  | [] => EmptyString
  | [a] =>
      let n := byte_val a * 16 in
      String (char_of_sextet (n / 64))
        (String (char_of_sextet (n mod 64)) (String PAD (String PAD EmptyString)))
  | [a; b] =>
      let n := (byte_val a * 256 + byte_val b) * 4 in
      String (char_of_sextet (n / 4096))
        (String (char_of_sextet (n / 64 mod 64))
           (String (char_of_sextet (n mod 64)) (String PAD EmptyString)))
  | a :: b :: c :: rest =>
      let n := byte_val a * 65536 + byte_val b * 256 + byte_val c in
      String (char_of_sextet (n / 262144))
        (String (char_of_sextet (n / 4096 mod 64))
           (String (char_of_sextet (n / 64 mod 64))
              (String (char_of_sextet (n mod 64)) (b64encode rest))))
  end.

Fixpoint translate (f : ascii -> ascii) (s : string) : string :=
  match s with
  | EmptyString => EmptyString
  | String c s' => String (f c) (translate f s')
  end.

Definition urlsafe_of_std (c : ascii) : ascii :=
  if Ascii.eqb c "+" then "-"%char
  else if Ascii.eqb c "/" then "_"%char
  else c.

Definition std_of_urlsafe (c : ascii) : ascii :=
  if Ascii.eqb c "-" then "+"%char
  else if Ascii.eqb c "_" then "/"%char
  else c.

(** [base64.urlsafe_b64encode(s).decode()]: the result is ASCII, so the
    [bytes] it returns and the [str] they decode to are the same text. *)
Definition urlsafe_b64encode (data : list byte) : string :=
  translate urlsafe_of_std (b64encode data).

(** The receiving side: strict decoding of padded base64. *)
Fixpoint b64decode (s : string) : option (list byte) :=
  match s with
  | EmptyString => Some []
  | String c0 (String c1 (String c2 (String c3 rest))) =>
      match sextet_of_char c0, sextet_of_char c1 with
      | Some s0, Some s1 =>
          if Ascii.eqb c3 PAD then
            if Ascii.eqb c2 PAD then
              match rest, byte_of ((s0 * 64 + s1) / 16) with
              | EmptyString, Some a => Some [a]
              | _, _ => None
              end
            else
              match sextet_of_char c2 with
              | Some s2 =>
                  let n := ((s0 * 64 + s1) * 64 + s2) / 4 in
                  match rest, byte_of (n / 256), byte_of (n mod 256) with
                  | EmptyString, Some a, Some b => Some [a; b]
                  | _, _, _ => None
                  end
              | None => None
              end
          else
            match sextet_of_char c2, sextet_of_char c3 with
            | Some s2, Some s3 =>
                let n := ((s0 * 64 + s1) * 64 + s2) * 64 + s3 in
                match byte_of (n / 65536), byte_of (n / 256 mod 256),
                      byte_of (n mod 256), b64decode rest with
                | Some a, Some b, Some c, Some tl => Some (a :: b :: c :: tl)
                | _, _, _, _ => None
                end
            | _, _ => None
            end
      | _, _ => None
      end
  | _ => None
  end.

Definition urlsafe_b64decode (s : string) : option (list byte) :=
  b64decode (translate std_of_urlsafe s).

End Base64.

(* ===================================================================== *)
(** * [email.message.EmailMessage] *)
(* ===================================================================== *)

Module Email.
Import PyStr Lines.

(** What the program puts into the message object: the headers it assigns,
    in order, each as the pair of the name and the value it was assigned
    from, and the text body with its subtype.  The header object that the
    library makes of such a pair is a function of the pair; what
    [message[name]] would read back from it (address lists are re-rendered,
    white space is trimmed) is not used by the program and not modelled.
    Everything the library does on the way to the wire belongs to the
    serialisation, [as_bytes], which is a parameter of the development: the
    MIME headers that [set_content] derives, the choice of transfer
    encoding, the line ends of the body (CR becomes LF and a final LF is
    added) and the folding of header lines. *)
Record EmailMessage := {
  headers : list (string * string);
  content : option (string * string)   (* subtype, text *)
}.

(** [EmailMessage()] *)
Definition new_message : EmailMessage :=
  {| headers := []; content := None |}.

(** [message.set_content(text, subtype=subtype)].  The library first
    encodes the text, [text.encode("utf-8")], which raises
    [UnicodeEncodeError] for a text with a lone surrogate: [encode_text]
    gives the exception, if any. *)
Definition set_content (encode_text : string -> option exn)
  (text subtype : string) (m : EmailMessage) : Outcome EmailMessage :=
  match encode_text text with
  | None => Return {| headers := headers m; content := Some (subtype, text) |}
  | Some e => Raise e
  end.

(** The first test of [policy.header_store_parse]: a value that
    [splitlines] cuts into more than one line is refused. *)
Definition header_value_ok (value : string) : bool :=
  Nat.leb (length (splitlines value)) 1.

Definition LINE_BREAK_IN_HEADER : exn :=
  Exn ValueError "Header values may not contain linefeed or carriage return characters".

(** [policy.header_store_parse(name, value)] for a [str] value: the test on
    the lines of the value, then [policy.header_factory(name, value)], which
    parses the value by the rules of the header ([To] and [From] as address
    lists, [Subject] as unstructured text) and may raise: [header_factory]
    gives the exception, if any. *)
Definition header_store_parse (header_factory : string -> string -> option exn)
  (name value : string) : Outcome (string * string) :=
  if header_value_ok value then
    match header_factory name value with
    | None => Return (name, value)
    | Some e => Raise e
    end
  else Raise LINE_BREAK_IN_HEADER.

Definition has_header (name : string) (m : EmailMessage) : bool :=
  existsb (fun kv => String.eqb (fst kv) name) (headers m).

(** [message[name] = value].  To, From and Subject may occur once
    ([policy.header_max_count]); then the header is parsed and appended. *)
Definition setitem (header_factory : string -> string -> option exn)
  (name value : string) (m : EmailMessage) : Outcome EmailMessage :=
  if has_header name m then
    Raise (Exn ValueError ("There may be at most 1 " +:+ name +:+ " headers in a message"))
  else
    match header_store_parse header_factory name value with
    | Return header =>
        Return {| headers := headers m ++ [header]; content := content m |}
    | Raise e => Raise e
    end.

End Email.

(* ===================================================================== *)
(** * The outside world *)
(* ===================================================================== *)

(** ** Google credentials *)

(** [google.oauth2.credentials.Credentials], as far as [get_gmail_service]
    looks at it.  [expired] is the value of the property when the function
    reads it. *)
Record Credentials := {
  token : option string;
  refresh_token : option string;
  expired : bool;
  scopes : list string
}.

(** [creds.valid] *)
Definition valid (c : Credentials) : bool :=
  match token c with
  | Some _ => negb (expired c)
  | None => false
  end.

(** [InstalledAppFlow] *)
Record Flow := { client_config : string; flow_scopes : list string }.

(** The handle [build] returns. *)
Record Service := { api : string; version : string; credentials : Credentials }.

(** ** HTTP responses of [requests] *)

Record Response := {
  status_code : Z;
  reason : string;
  url : string;
  text : string;
  json_ : Outcome json        (* what [response.json()] does *)
}.

(** What [requests.post] does.  The library raises [HTTPError] only from
    [raise_for_status]; a failed request raises another
    [RequestException] (connection error, timeout, ...), or something
    else altogether. *)
Inductive PostOutcome :=
  | Responded (r : Response)
  | RequestFailed (msg : string)
  | PostCrashed (msg : string).

(** ** Observable events *)

Inductive Event :=
  | EvLoadDotenv
  | EvGetenv (name : string)
  | EvPathExists (path : string)
  | EvReadFile (path : string)
  | EvWriteFile (path content : string)
  | EvRefresh (c : Credentials)
  | EvLocalServer (f : Flow)
  | EvBuild (c : Credentials)
  | EvGmailSend (user_id raw : string)
  | EvHttpPost (endpoint : string) (body headers : gmap string string)
  | EvPrint (line : string).

(** Events that talk to the network. *)
Definition is_network (e : Event) : bool :=
  match e with
  | EvRefresh _ | EvLocalServer _ | EvBuild _ | EvGmailSend _ _ | EvHttpPost _ _ _ => true
  | _ => false
  end.

(** Events of the interactive consent flow (the Acquirer): reading the client
    secret and running the local callback server with the consent URL. *)
Definition is_acquirer (path : string) (e : Event) : bool :=
  match e with
  | EvLocalServer _ => true
  | EvReadFile p => String.eqb p path
  | _ => false
  end.

(** ** The behaviour of the libraries and services the program calls *)

Record External := {
  (** [os.path.dirname(os.path.abspath(__file__))] *)
  script_dir : string;
  (** the variables of the [.env] file *)
  dotenv : gmap string string;
  (** [Credentials.from_authorized_user_info] on the token file's text *)
  parse_authorized_user : string -> list string -> Outcome Credentials;
  (** [creds.refresh(Request())]: the refreshed credentials *)
  refresh : Credentials -> Outcome Credentials;
  (** [InstalledAppFlow.from_client_config] on the client secret's text *)
  parse_client_secrets : string -> list string -> Outcome Flow;
  (** [flow.run_local_server(port=0)] *)
  run_local_server : Flow -> Outcome Credentials;
  (** [creds.to_json()] *)
  to_json : Credentials -> string;
  (** [open(path, "w")]: the error, if the file cannot be opened *)
  open_for_writing : string -> option exn;
  (** [googleapiclient.discovery.build] *)
  build : string -> string -> Credentials -> Outcome Service;
  (** [service.users().messages().send(userId, body={"raw": raw}).execute()] *)
  messages_send : Service -> string -> string -> Outcome json;
  (** [text.encode("utf-8")]: the exception it raises, if the text cannot
      be encoded *)
  encode_text : string -> option exn;
  (** [policy.header_factory(name, value)]: the exception it raises, if
      the header parser refuses the value *)
  header_factory : string -> string -> option exn;
  (** [message.as_bytes()]: the bytes, or the exception of the generator
      (a header that cannot be folded gives [HeaderWriteError]) *)
  as_bytes : Email.EmailMessage -> Outcome (list byte);
  (** [requests.post(endpoint, json=body, headers=headers)] *)
  post : string -> gmap string string -> gmap string string -> PostOutcome;
  (** [str(v)] for a JSON value that is not a string *)
  str_of_value : json -> string
}.

(** ** The state of the process *)

(** The module-level names that are assigned when the module is loaded
    and that a later call reads. *)
Record Globals := {
  APOLLO_API_KEY : option string
}.

Record State := {
  files : gmap string string;      (* path -> text *)
  environ : gmap string string;    (* os.environ *)
  globals : Globals;
  trace : list Event               (* oldest first *)
}.

Definition emit (e : Event) (st : State) : State :=
  {| files := files st; environ := environ st; globals := globals st;
     trace := trace st ++ [e] |}.

Definition set_files (f : gmap string string) (st : State) : State :=
  {| files := f; environ := environ st; globals := globals st; trace := trace st |}.

Definition set_environ (env : gmap string string) (st : State) : State :=
  {| files := files st; environ := env; globals := globals st; trace := trace st |}.

Definition set_globals (g : Globals) (st : State) : State :=
  {| files := files st; environ := environ st; globals := g; trace := trace st |}.

(* ===================================================================== *)
(** * A monad for state and exceptions *)
(* ===================================================================== *)

Definition M (A : Type) : Type := State -> Outcome A * State.

Definition ret {A} (a : A) : M A := fun st => (Return a, st).
Definition raise {A} (e : exn) : M A := fun st => (Raise e, st).

Definition bind {A B} (m : M A) (k : A -> M B) : M B :=
  fun st =>
    match m st with
    | (Return a, st') => k a st'
    | (Raise e, st') => (Raise e, st')
    end.

Definition lift {A} (o : Outcome A) : M A := fun st => (o, st).
Definition event (e : Event) : M unit := fun st => (Return tt, emit e st).
Definition get_state : M State := fun st => (Return st, st).
Definition modify (f : State -> State) : M unit := fun st => (Return tt, f st).

(** [try: body except C1 ...: h1 except C2 ...: h2 ...]: the first clause
    whose class the exception is an instance of handles it; with no such
    clause the exception goes on. *)
Fixpoint dispatch {A} (e : exn) (clauses : list (exn_class * (exn -> M A))) : M A :=
  match clauses with
  | [] => raise e
  | (C, h) :: rest => if is_instance e C then h e else dispatch e rest
  end.

Definition try_except {A} (body : M A) (clauses : list (exn_class * (exn -> M A))) : M A :=
  fun st =>
    match body st with
    | (Return a, st') => (Return a, st')
    | (Raise e, st') => dispatch e clauses st'
    end.

Declare Scope py_scope.
Delimit Scope py_scope with py.
Notation "'let*' x ':=' m 'in' k" := (bind m (fun x => k))
  (at level 10, x name, m at level 100, k at level 200) : py_scope.
Notation "m ';;;' k" := (bind m (fun _ => k))
  (at level 100, k at level 200, right associativity) : py_scope.

Definition result {A} (r : Outcome A * State) : Outcome A := fst r.
Definition final {A} (r : Outcome A * State) : State := snd r.

(** The events a computation adds to the trace of [st]. *)
Definition emitted {A} (m : M A) (st : State) : list Event :=
  drop (length (trace st)) (trace (final (m st))).

(** Computations that only ever add to the trace. *)
Definition extends {A} (m : M A) : Prop :=
  forall st, exists evs, trace (final (m st)) = trace st ++ evs.

(* ===================================================================== *)
(** * The program: [server/server.py] *)
(* ===================================================================== *)

Module Server.
Import PyStr Html Email.
Local Open Scope py_scope.

Section Program.

Context (ext : External).

(** ** Primitive operations *)

(** [os.path.join(dir, name)] for a relative [name] (POSIX). *)
Definition ends_with_slash (s : string) : bool :=
  match String.get (String.length s - 1) s with
  | Some c => Ascii.eqb c "/"
  | None => false
  end.

Definition path_join (dir name : string) : string :=
  if negb (truthy dir) || ends_with_slash dir then dir +:+ name
  else dir +:+ "/" +:+ name.

(** [os.path.exists(path)] *)
Definition path_exists (path : string) : M bool :=
  event (EvPathExists path) ;;;
  let* st := get_state in
  ret (match files st !! path with Some _ => true | None => false end).

(** Reading a whole text file. *)
Definition read_file (path : string) : M string :=
  event (EvReadFile path) ;;;
  let* st := get_state in
  match files st !! path with
  | Some text => ret text
  | None =>
      raise (Exn FileNotFoundError
               ("[Errno 2] No such file or directory: '" +:+ path +:+ "'"))
  end.

(** [with open(path, "w") as f: f.write(text)] *)
Definition write_file (path text : string) : M unit :=
  match open_for_writing ext path with
  | Some e => raise e
  | None =>
      event (EvWriteFile path text) ;;;
      modify (fun st => set_files (<[path := text]> (files st)) st)
  end.

(** [print(line)] *)
Definition print (line : string) : M unit := event (EvPrint line).

(** [f"{v}"] *)
Definition str (v : json) : string :=
  match v with
  | JStr s => s
  | _ => str_of_value ext v
  end.

(** ** Module level, lines 17-27 and 125 *)

Definition SCRIPT_DIR : string := script_dir ext.
Definition TOKEN_PATH : string := path_join SCRIPT_DIR "token.json".
Definition CREDENTIALS_PATH : string := path_join SCRIPT_DIR "credentials.json".

(** Line 57. *)
Definition SCOPES : list string := ["https://mail.google.com/"].

(** [load_dotenv()]: variables of the [.env] file are added to the
    environment; a variable that is already set keeps its value. *)
Definition load_dotenv : M unit :=
  event EvLoadDotenv ;;;
  modify (fun st => set_environ (environ st ∪ dotenv ext) st).

(** [os.environ.get(name)] *)
Definition environ_get (name : string) : M (option string) :=
  event (EvGetenv name) ;;;
  let* st := get_state in
  ret (environ st !! name).

(** Loading the module: the statements that run once, at import. *)
Definition module_load : M unit :=
  load_dotenv ;;;
  let* key := environ_get "APOLLO_API_KEY" in
  modify (set_globals {| APOLLO_API_KEY := key |}).

(** ** [get_gmail_service], lines 59-87 *)

Definition from_authorized_user_file (path : string) (scopes : list string)
  : M Credentials :=
  let* text := read_file path in
  lift (parse_authorized_user ext text scopes).

Definition from_client_secrets_file (path : string) (scopes : list string)
  : M Flow :=
  let* text := read_file path in
  lift (parse_client_secrets ext text scopes).

Definition creds_refresh (c : Credentials) : M Credentials :=
  event (EvRefresh c) ;;;
  lift (refresh ext c).

Definition flow_run_local_server (f : Flow) : M Credentials :=
  event (EvLocalServer f) ;;;
  lift (run_local_server ext f).

Definition discovery_build (a v : string) (c : Credentials) : M Service :=
  event (EvBuild c) ;;;
  lift (build ext a v c).

Definition MISSING_SECRET : string :=
  "Error: 'credentials.json' not found. Please ensure the credentials file is in the same directory as the server script.".

(** Lines 74-82: the interactive consent flow. *)
Definition acquire : M Credentials :=
  let* secret_exists := path_exists CREDENTIALS_PATH in
  if negb secret_exists then
    raise (Exn FileNotFoundError MISSING_SECRET)
  else
    let* flow := from_client_secrets_file CREDENTIALS_PATH SCOPES in
    flow_run_local_server flow.

(** Lines 71-85, entered when [not creds or not creds.valid]: refresh when
    [creds and creds.expired and creds.refresh_token], otherwise acquire;
    then store the token. *)
Definition login (creds : option Credentials) : M Credentials :=
  let* creds :=
    (match creds with
     | Some c =>
         if expired c && Py.truth_opt (refresh_token c) then creds_refresh c
         else acquire
     | None => acquire
     end) in
  write_file TOKEN_PATH (to_json ext creds) ;;;
  ret creds.

Definition get_gmail_service : M Service :=
  let* token_exists := path_exists TOKEN_PATH in
  let* creds :=
    (if token_exists
     then let* c := from_authorized_user_file TOKEN_PATH SCOPES in ret (Some c)
     else ret None) in
  let* creds :=
    (match creds with
     | Some c => if valid c then ret c else login creds
     | None => login creds
     end) in
  discovery_build "gmail" "v1" creds.

(** ** [send_email], lines 90-122 *)

Definition obind {A B} (o : Outcome A) (k : A -> Outcome B) : Outcome B :=
  match o with
  | Return a => k a
  | Raise e => Raise e
  end.

(** Lines 97-106: the message object. *)
Definition make_message (recipient_email subject body : string)
  : Outcome EmailMessage :=
  let message := new_message in
  obind (set_content (encode_text ext) (html_body body) "html" message) (fun message =>
  obind (setitem (header_factory ext) "To" recipient_email message) (fun message =>
  obind (setitem (header_factory ext) "From" "me" message) (fun message =>
  setitem (header_factory ext) "Subject" subject message))).

(** The message that lines 97-106 build when the library refuses nothing. *)
Definition composed (recipient_email subject body : string) : EmailMessage :=
  {| headers := [("To", recipient_email); ("From", "me"); ("Subject", subject)];
     content := Some ("html", html_body body) |}.

(** Line 109: the transport payload. *)
Definition encoded_message (message : EmailMessage) : Outcome string :=
  obind (as_bytes ext message) (fun raw =>
  Return (Base64.urlsafe_b64encode raw)).

(** Lines 97-109 together. *)
Definition compose (recipient_email subject body : string) : Outcome string :=
  obind (make_message recipient_email subject body) (fun message =>
  encoded_message message).

Definition execute_send (service : Service) (user_id raw : string) : M json :=
  event (EvGmailSend user_id raw) ;;;
  lift (messages_send ext service user_id raw).

(** Lines 96-116: the suite of the [try] statement. *)
Definition send_email_suite (recipient_email subject body : string) : M string :=
  let* service := get_gmail_service in
  let* encoded := lift (compose recipient_email subject body) in
  let* send_message := execute_send service "me" encoded in
  let* id := lift (Py.getitem send_message "id") in
  print ("Message Id: " +:+ str id) ;;;
  ret ("Successfully sent email to " +:+ recipient_email +:+
       " with Message ID: " +:+ str id).

Definition send_email (recipient_email subject body : string) : M string :=
  try_except
    (send_email_suite recipient_email subject body)
    [ (GoogleHttpError, fun error =>
         print ("An error occurred: " +:+ exn_str error) ;;;
         ret ("Failed to send email. Error: " +:+ exn_str error));
      (Exception_, fun e =>
         print ("An unexpected error occurred: " +:+ exn_str e) ;;;
         ret ("An unexpected error occurred: " +:+ exn_str e)) ].

(** ** [_enrich_person], lines 127-156 *)

Definition api_endpoint : string := "https://api.apollo.io/api/v1/people/match".

Definition NOT_FOUND : string := "Email not found for the given details.".

Definition KEY_NOT_SET : exn :=
  Exn ValueError "APOLLO_API_KEY environment variable not set.".

(** [response.raise_for_status()] *)
Definition raise_for_status (r : Response) : Outcome unit :=
  if (400 <=? status_code r) && (status_code r <? 500) then
    Raise (Exn RequestsHTTPError
             (of_Z (status_code r) +:+ " Client Error: " +:+ reason r +:+
              " for url: " +:+ url r))
  else if (500 <=? status_code r) && (status_code r <? 600) then
    Raise (Exn RequestsHTTPError
             (of_Z (status_code r) +:+ " Server Error: " +:+ reason r +:+
              " for url: " +:+ url r))
  else Return tt.

(** Line 146: ["person" in data and data["person"] and "email" in
    data["person"] and data["person"]["email"]], with the short circuit of
    [and]. *)
Definition has_email (data : json) : Outcome bool :=
  obind (Py.contains_key "person" data) (fun c1 =>
  if negb c1 then Return false else
  obind (Py.getitem data "person") (fun person =>
  if negb (Py.truth person) then Return false else
  obind (Py.contains_key "email" person) (fun c2 =>
  if negb c2 then Return false else
  obind (Py.getitem person "email") (fun email =>
  Return (Py.truth email))))).

(** The e-mail field of the person record of a response body, when the
    record is there and the field is truthy. *)
Definition email_field (d : gmap string json) : option json :=
  match d !! "person" with
  | Some (JObj p) =>
      match p !! "email" with
      | Some v => if Py.truth v then Some v else None
      | None => None
      end
  | _ => None
  end.

(** The person entry of a response body has the shape of a record: it is
    missing, falsy ([null], an empty object) or an object. *)
Definition person_is_record (d : gmap string json) : bool :=
  match d !! "person" with
  | None => true
  | Some (JObj _) => true
  | Some v => negb (Py.truth v)
  end.

Definition request_headers (key : string) : gmap string string :=
  <["x-api-key" := key]>
    {[ "Content-Type" := "application/json"; "Cache-Control" := "no-cache" ]}.

Definition _enrich_person (params : gmap string string) : M string :=
  let* st := get_state in
  let key := APOLLO_API_KEY (globals st) in
  if negb (Py.truth_opt key) then
    raise KEY_NOT_SET
  else
    let headers := request_headers (default EmptyString key) in
    let outcome := post ext api_endpoint params headers in
    (* [response] is bound once [requests.post] has returned *)
    let response :=
      match outcome with
      | Responded r => Some r
      | _ => None
      end in
    try_except
      (event (EvHttpPost api_endpoint params headers) ;;;
       let* response :=
         (match outcome with
          | Responded r => ret r
          | RequestFailed msg => raise (Exn RequestException msg)
          | PostCrashed msg => raise (Exn Exception_ msg)
          end) in
       lift (raise_for_status response) ;;;
       let* data := lift (json_ response) in
       let* found := lift (has_email data) in
       if found then
         let* person := lift (Py.getitem data "person") in
         let* email := lift (Py.getitem person "email") in
         ret ("Email found: " +:+ str email)
       else
         ret NOT_FOUND)
      [ (RequestsHTTPError, fun http_err =>
           match response with
           | Some r =>
               ret ("HTTP error occurred: " +:+ exn_str http_err +:+ " - " +:+ text r)
           | None =>
               raise (Exn UnboundLocalError
                 "cannot access local variable 'response' where it is not associated with a value")
           end);
        (RequestException, fun req_err =>
           ret ("Request error occurred: " +:+ exn_str req_err));
        (Exception_, fun e =>
           ret ("An unexpected error occurred: " +:+ exn_str e)) ].

(** ** The two enrichment tools, lines 158-178 *)

Definition name_and_company_params (first_name last_name company_name : string)
  : gmap string string :=
  {[ "first_name" := first_name;
     "last_name" := last_name;
     "organization_name" := company_name ]}.

Definition linkedin_params (linkedin_url : string) : gmap string string :=
  {[ "person_linkedin_url" := linkedin_url ]}.

Definition find_email_by_name_and_company
  (first_name last_name company_name : string) : M string :=
  let params := name_and_company_params first_name last_name company_name in
  _enrich_person params.

Definition find_email_by_linkedin (linkedin_url : string) : M string :=
  let params := linkedin_params linkedin_url in
  _enrich_person params.

End Program.
End Server.

(* ===================================================================== *)
(** * A concrete world, for running the program *)
(* ===================================================================== *)

Module Example.
Import PyStr Email.

(** ** A serialisation

    The bytes that CPython's [as_bytes] writes for a message whose header
    values are short ASCII words and whose body is a short ASCII line
    without CR: the MIME headers of [set_content], the headers in the order
    of assignment, an empty line and the body with a final line feed. *)

Definition EOL : string := String LF EmptyString.

Definition header_line (kv : string * string) : string :=
  if truthy (snd kv) then fst kv +:+ ": " +:+ snd kv +:+ EOL
  else fst kv +:+ ":" +:+ EOL.

Definition mime_headers (subtype : string) : string :=
  "Content-Type: text/" +:+ subtype +:+ "; charset=" +:+
    String DQUOTE ("utf-8" +:+ String DQUOTE EOL) +:+
  "Content-Transfer-Encoding: 7bit" +:+ EOL +:+
  "MIME-Version: 1.0" +:+ EOL.

Definition message_text (m : EmailMessage) : string :=
  match content m with
  | Some (subtype, body) =>
      mime_headers subtype +:+
      String.concat EmptyString (map header_line (headers m)) +:+ EOL +:+
      body +:+ EOL
  | None =>
      String.concat EmptyString (map header_line (headers m)) +:+ EOL
  end.

Definition message_as_bytes (m : EmailMessage) : list byte :=
  String.list_byte_of_string (message_text m).

(** ** Services that answer *)

Definition stored_creds : Credentials :=
  {| token := Some "ya29.old"; refresh_token := Some "1//refresh";
     expired := true; scopes := ["https://mail.google.com/"] |}.

Definition fresh_creds : Credentials :=
  {| token := Some "ya29.new"; refresh_token := Some "1//refresh";
     expired := false; scopes := ["https://mail.google.com/"] |}.

Definition person_found : Response :=
  {| status_code := 200; reason := "OK";
     url := "https://api.apollo.io/api/v1/people/match";
     text := "{...}";
     json_ := Return (JObj {[ "person" := JObj {[ "email" := JStr "a@b.com" ]} ]}) |}.

Definition person_without_email : Response :=
  {| status_code := 200; reason := "OK";
     url := "https://api.apollo.io/api/v1/people/match";
     text := "{...}";
     json_ := Return (JObj {[ "person" := JObj {[ "name" := JStr "Ann" ]} ]}) |}.

Definition server_error : Response :=
  {| status_code := 500; reason := "Internal Server Error";
     url := "https://api.apollo.io/api/v1/people/match";
     text := "oops";
     json_ := Raise (Exn RequestException "Expecting value: line 1 column 1 (char 0)") |}.

Definition world (answer : Response) (sent : Outcome json) : External :=
  {| script_dir := "/srv/email_generator";
     dotenv := ∅;
     parse_authorized_user := fun _ _ => Return stored_creds;
     refresh := fun _ => Return fresh_creds;
     parse_client_secrets := fun text sc => Return {| client_config := text; flow_scopes := sc |};
     run_local_server := fun _ => Return fresh_creds;
     to_json := fun c => default "null" (token c);
     open_for_writing := fun _ => None;
     build := fun a v c => Return {| api := a; version := v; credentials := c |};
     messages_send := fun _ _ _ => sent;
     encode_text := fun _ => None;
     header_factory := fun _ _ => None;
     as_bytes := fun m => Return (message_as_bytes m);
     post := fun _ _ _ => Responded answer;
     str_of_value := fun _ => "?" |}.

Definition ext : External :=
  world person_found (Return (JObj {[ "id" := JStr "18c2f0a1" ]})).

(** A provider that refuses the message. *)
Definition refusing : External :=
  world person_found
    (Raise (Exn GoogleHttpError "<HttpError 403 Insufficient Permission>")).

(** Enrichment services that know no e-mail, or fail. *)
Definition without_email : External :=
  world person_without_email (Return (JObj {[ "id" := JStr "18c2f0a1" ]})).

Definition failing : External :=
  world server_error (Return (JObj {[ "id" := JStr "18c2f0a1" ]})).

(** ** States *)

(** A process whose module was loaded without a key, and one with a key;
    no file exists. *)
Definition blank : State :=
  {| files := ∅; environ := ∅; globals := {| APOLLO_API_KEY := None |}; trace := [] |}.

Definition with_key (k : string) : State :=
  {| files := ∅; environ := ∅; globals := {| APOLLO_API_KEY := Some k |}; trace := [] |}.

(** A process that finds a stored token. *)
Definition with_token : State :=
  {| files := {[ Server.TOKEN_PATH ext := "{token}" ]}; environ := ∅;
     globals := {| APOLLO_API_KEY := None |}; trace := [] |}.

End Example.

(* ===================================================================== *)
(** * [str.strip] *)
(* ===================================================================== *)

Module Strip.
Import PyStr Lines.

(** White space as [str.strip()] understands it, on the UTF-8 bytes of the
    string: U+0009-000D, U+001C-0020, U+0085, U+00A0, U+1680,
    U+2000-200A, U+2028, U+2029, U+202F, U+205F and U+3000. *)
Definition space1 (c : ascii) : bool :=
  let n := code c in
  ((N.leb 9 n && N.leb n 13) || (N.leb 28 n && N.leb n 32))%bool.

Definition space2 (c d : ascii) : bool :=
  (N.eqb (code c) 194 && (N.eqb (code d) 133 || N.eqb (code d) 160))%bool.

Definition space3 (c d e : ascii) : bool :=
  ((N.eqb (code c) 225 && N.eqb (code d) 154 && N.eqb (code e) 128) ||
   (N.eqb (code c) 226 && N.eqb (code d) 128 &&
      ((N.leb 128 (code e) && N.leb (code e) 138) ||
       N.eqb (code e) 168 || N.eqb (code e) 169 || N.eqb (code e) 175)) ||
   (N.eqb (code c) 226 && N.eqb (code d) 129 && N.eqb (code e) 159) ||
   (N.eqb (code c) 227 && N.eqb (code d) 128 && N.eqb (code e) 128))%bool.

(** [s.lstrip()] *)
Fixpoint lstrip (s : string) : string :=
  match s with
  | EmptyString => EmptyString
  | String c s1 =>
      if space1 c then lstrip s1
      else
        match s1 with
        | String d s2 =>
            if space2 c d then lstrip s2
            else
              match s2 with
              | String e s3 => if space3 c d e then lstrip s3 else s
              | EmptyString => s
              end
        | EmptyString => s
        end
  end.

(** [s.isspace()] or [s] is empty. *)
Fixpoint all_space (s : string) : bool :=
  match s with
  | EmptyString => true
  | String c s1 =>
      if space1 c then all_space s1
      else
        match s1 with
        | String d s2 =>
            if space2 c d then all_space s2
            else
              match s2 with
              | String e s3 => if space3 c d e then all_space s3 else false
              | EmptyString => false
              end
        | EmptyString => false
        end
  end.

(** [s.rstrip()]: what is left of a position is kept as soon as something
    other than white space follows. *)
Fixpoint rstrip (s : string) : string :=
  match s with
  | EmptyString => EmptyString
  | String c s1 => if all_space s then EmptyString else String c (rstrip s1)
  end.

(** [s.strip()] *)
Definition strip (s : string) : string := rstrip (lstrip s).

(** The bytes that occur in the encoding of some white-space character. *)
Definition space_byte (c : ascii) : bool :=
  let n := code c in
  (space1 c || N.eqb n 194 || N.eqb n 133 || N.eqb n 160 ||
   N.eqb n 225 || N.eqb n 154 || (N.leb 128 n && N.leb n 138) ||
   N.eqb n 226 || N.eqb n 168 || N.eqb n 169 || N.eqb n 175 ||
   N.eqb n 129 || N.eqb n 159 || N.eqb n 227)%bool.

End Strip.

(* ===================================================================== *)
(** * [generate_email_prompt], lines 29-54 *)
(* ===================================================================== *)

Module Prompt.
Import PyStr.

(** [line ++ "\n" ++ rest] *)
Definition line (text rest : string) : string := text +:+ String LF rest.

(** The template before [{context}], without its first line feed. *)
Definition PROMPT_HEAD : string :=
  line "You are an expert email writer. Your task is to generate a professional and clear email."
 (line EmptyString
 (line "**Context for the email:**"
  EmptyString)).

(** The template after [{context}], up to its last line. *)
Definition PROMPT_STRUCTURE : string :=
  line EmptyString
 (line EmptyString
 (line "Based on the context above, please generate a complete email with the following structure:"
 (line EmptyString
 (line "**Subject:** [A concise and descriptive subject line]"
 (line EmptyString
 (line "**Body:**"
 (line "[A well-written email body that clearly communicates the message based on the provided context. Start with a polite salutation.]"
 (line EmptyString
 (line "**Closing:**"
 (line ("[A professional closing, such as " +:+ String DQUOTE ("Best regards," +:+ String DQUOTE "]"))
 (line EmptyString
 (line "**Signature:**"
 (line "[A placeholder for the sender's name, as Sathvik Musku]"
 (line EmptyString
 (line "Please ensure the tone is professional. Do not add any extra commentary outside of the email structure."
  EmptyString))))))))))))))).

Definition PROMPT_LAST : string := "Describe the email in only one paragraph.".

Definition PROMPT_TAIL : string := PROMPT_STRUCTURE +:+ PROMPT_LAST.

(** The f-string of lines 32-53. *)
Definition prompt_template (context : string) : string :=
  String LF (PROMPT_HEAD +:+ context +:+ PROMPT_TAIL +:+ String LF EmptyString).

Definition generate_email_prompt (context : string) : string :=
  let prompt := prompt_template context in
  Strip.strip prompt.

End Prompt.

(* ===================================================================== *)
(** * Classes of events and what a computation may touch *)
(* ===================================================================== *)

(** The events of [get_gmail_service]: file checks, reads and writes, the
    token refresh, the consent flow and the construction of the service. *)
Definition is_session_event (e : Event) : bool :=
  match e with
  | EvPathExists _ | EvReadFile _ | EvWriteFile _ _
  | EvRefresh _ | EvLocalServer _ | EvBuild _ => true
  | _ => false
  end.

Definition is_refresh (e : Event) : bool :=
  match e with
  | EvRefresh _ => true
  | _ => false
  end.

Definition is_send (e : Event) : bool :=
  match e with
  | EvGmailSend _ _ => true
  | _ => false
  end.

Definition is_print (e : Event) : bool :=
  match e with
  | EvPrint _ => true
  | _ => false
  end.

(** A run of [m] from [st] is framed by [P] and [path] when it only adds
    events of class [P] to the trace, leaves the environment and the module
    globals alone and changes no file other than [path]. *)
Definition framed (P : Event -> bool) (path : string) {A} (m : M A) (st : State)
  : Prop :=
  (exists evs, trace (final (m st)) = trace st ++ evs /\ forallb P evs = true) /\
  environ (final (m st)) = environ st /\
  globals (final (m st)) = globals st /\
  (forall p, p <> path -> files (final (m st)) !! p = files st !! p).

(** The characters of the URL-safe base64 alphabet, and the padding. *)
Definition urlsafe_char (c : ascii) : bool :=
  let n := Ascii.N_of_ascii c in
  ((N.leb 65 n && N.leb n 90) || (N.leb 97 n && N.leb n 122) ||
   (N.leb 48 n && N.leb n 57) || N.eqb n 45 || N.eqb n 95 || N.eqb n 61)%bool.

Fixpoint all_chars (P : ascii -> bool) (s : string) : bool :=
  match s with
  | EmptyString => true
  | String c s' => P c && all_chars P s'
  end.

(** The characters that [html.escape] and the line-break replacement
    rewrite. *)
Definition is_special (c : ascii) : bool :=
  (Ascii.eqb c "&" || Ascii.eqb c "<" || Ascii.eqb c ">" ||
   Ascii.eqb c PyStr.DQUOTE || Ascii.eqb c PyStr.SQUOTE || Ascii.eqb c PyStr.LF)%bool.

(* ===================================================================== *)
(** * More worlds to run the program in *)
(* ===================================================================== *)

Module Scenario.
Import Example.

Definition world (parse : string -> Outcome Credentials)
  (refreshed consent : Outcome Credentials)
  (sent : Outcome json) (posted : PostOutcome) : External :=
  {| script_dir := "/srv/email_generator";
     dotenv := {[ "APOLLO_API_KEY" := "key-from-dotenv" ]};
     parse_authorized_user := fun text _ => parse text;
     refresh := fun _ => refreshed;
     parse_client_secrets := fun text sc => Return {| client_config := text; flow_scopes := sc |};
     run_local_server := fun _ => consent;
     to_json := fun c => default "null" (token c);
     open_for_writing := fun _ => None;
     build := fun a v c => Return {| api := a; version := v; credentials := c |};
     messages_send := fun _ _ _ => sent;
     encode_text := fun _ => None;
     header_factory := fun _ _ => None;
     as_bytes := fun m => Return (message_as_bytes m);
     post := fun _ _ _ => posted;
     str_of_value := fun _ => "?" |}.

(** A token file reads as valid credentials when it holds the fresh token,
    and as the expired ones otherwise. *)
Definition parse_token (text : string) : Outcome Credentials :=
  if String.eqb text "ya29.new" then Return fresh_creds else Return stored_creds.

Definition accepted : Outcome json := Return (JObj {[ "id" := JStr "18c2f0a1" ]}).

Definition usual : External :=
  world parse_token (Return fresh_creds) (Return fresh_creds) accepted
    (Responded person_found).

(** The provider revoked the refresh token. *)
Definition revoked : External :=
  world parse_token (Raise (Exn Exception_ "invalid_grant: Token has been expired or revoked."))
    (Return fresh_creds) accepted (Responded person_found).

(** The stored record is expired and has no refresh token. *)
Definition no_refresh_token : External :=
  world (fun _ => Return {| token := Some "ya29.old"; refresh_token := None;
                            expired := true; scopes := [] |})
    (Return fresh_creds) (Return fresh_creds) accepted (Responded person_found).

(** The provider answers without an identifier. *)
Definition without_id : External :=
  world parse_token (Return fresh_creds) (Return fresh_creds)
    (Return (JObj {[ "threadId" := JStr "18c2f0a1" ]})) (Responded person_found).

(** The enrichment service cannot be reached, or answers with JSON [null]. *)
Definition unreachable : External :=
  world parse_token (Return fresh_creds) (Return fresh_creds) accepted
    (RequestFailed "HTTPSConnectionPool(host='api.apollo.io', port=443): Max retries exceeded").

Definition answers_null : External :=
  world parse_token (Return fresh_creds) (Return fresh_creds) accepted
    (Responded {| status_code := 200; reason := "OK";
                  url := "https://api.apollo.io/api/v1/people/match";
                  text := "null"; json_ := Return JNull |}).

(** The enrichment service answers with a person that is a text, not a
    record. *)
Definition answers_text : External :=
  world parse_token (Return fresh_creds) (Return fresh_creds) accepted
    (Responded {| status_code := 200; reason := "OK";
                  url := "https://api.apollo.io/api/v1/people/match";
                  text := "{...}";
                  json_ := Return (JObj {[ "person" := JStr "my email" ]}) |}).

(** What CPython 3.11 does with two recipients of one line: the address
    parser of [To] runs off the end of [ann@] (an [IndexError]), and the
    generator cannot fold the header made of [nested_recipient] (a
    [HeaderWriteError]).  Both classes derive from [Exception]. *)
Definition address_parser (name value : string) : option exn :=
  if String.eqb name "To" && String.eqb value "ann@"
  then Some (Exn Exception_ "string index out of range")
  else None.

Definition nested_recipient : string :=
  String.concat EmptyString (repeat "a(" 32) +:+ " <a@b.com>".

Definition generator (m : Email.EmailMessage) : Outcome (list byte) :=
  if existsb (fun kv => String.eqb (snd kv) nested_recipient) (Email.headers m)
  then Raise (Exn Exception_
                ("folded header contains newline: b'To: " +:+
                 String.concat EmptyString (repeat "a(" 32) +:+ "\n( <a@b.com>" +:+
                 String.concat EmptyString (repeat ")" 32) +:+ "\n'"))
  else Return (message_as_bytes m).

Definition strict : External :=
  {| script_dir := script_dir usual;
     dotenv := dotenv usual;
     parse_authorized_user := parse_authorized_user usual;
     refresh := refresh usual;
     parse_client_secrets := parse_client_secrets usual;
     run_local_server := run_local_server usual;
     to_json := to_json usual;
     open_for_writing := open_for_writing usual;
     build := build usual;
     messages_send := messages_send usual;
     encode_text := encode_text usual;
     header_factory := address_parser;
     as_bytes := generator;
     post := post usual;
     str_of_value := str_of_value usual |}.

(** States: the client secret is there and no token; a fresh token is
    stored; an expired token is stored. *)
Definition first_run : State :=
  {| files := {[ Server.CREDENTIALS_PATH usual := "{installed}" ]}; environ := ∅;
     globals := {| APOLLO_API_KEY := None |}; trace := [] |}.

Definition fresh_token : State :=
  {| files := {[ Server.TOKEN_PATH usual := "ya29.new" ]}; environ := ∅;
     globals := {| APOLLO_API_KEY := None |}; trace := [] |}.

Definition old_token : State :=
  {| files := {[ Server.TOKEN_PATH usual := "ya29.old" ]}; environ := ∅;
     globals := {| APOLLO_API_KEY := None |}; trace := [] |}.

(** A process started with an empty key in the environment. *)
Definition empty_key_env : State :=
  {| files := ∅; environ := {[ "APOLLO_API_KEY" := EmptyString ]};
     globals := {| APOLLO_API_KEY := None |}; trace := [] |}.

End Scenario.

(* ===================================================================== *)
(** * Facts about the HTML body *)
(* ===================================================================== *)

Module HtmlFacts.
Import PyStr Html.

Lemma append_assoc (a b c : string) : (a +:+ b) +:+ c = a +:+ (b +:+ c).
Proof.
  induction a as [|x a IH]; [reflexivity|].
  change (String x ((a +:+ b) +:+ c) = String x (a +:+ (b +:+ c))).
  f_equal; exact IH.
Qed.

Lemma append_empty_r (a : string) : a +:+ EmptyString = a.
Proof.
  induction a as [|x a IH]; [reflexivity|].
  change (String x (a +:+ EmptyString) = String x a).
  f_equal; exact IH.
Qed.

(** Case analysis on a character: all 256 of them. *)
Ltac each_char c := destruct c as [[] [] [] [] [] [] [] []].

(** [html.escape] works character by character, although the library
    writes it as five passes. *)
Lemma escape_step (c : ascii) (s : string) :
  escape (String c s) = escape_char c +:+ escape s.
Proof. unfold escape. each_char c; reflexivity. Qed.

Lemma formatted_step (c : ascii) (s : string) :
  html_formatted_body (String c s) = markup_char c +:+ html_formatted_body s.
Proof. unfold html_formatted_body, escape. each_char c; reflexivity. Qed.

Lemma render_step (c : ascii) (rest : string) :
  render Text (markup_char c +:+ rest) = String c (render Text rest).
Proof. each_char c; reflexivity. Qed.


Lemma occurrences_step (c : ascii) (rest : string) :
  occurrences "<br>" (markup_char c +:+ rest) =
  ((if Ascii.eqb c LF then 1 else 0) + occurrences "<br>" rest)%nat.
Proof. each_char c; reflexivity. Qed.

Lemma render_formatted (body rest : string) :
  render Text (html_formatted_body body +:+ rest) = body +:+ render Text rest.
Proof.
  induction body as [|c body IH]; [reflexivity|].
  rewrite formatted_step, append_assoc, render_step, IH. reflexivity.
Qed.


Lemma occurrences_formatted (body rest : string) :
  occurrences "<br>" (html_formatted_body body +:+ rest) =
  (count_char LF body + occurrences "<br>" rest)%nat.
Proof.
  induction body as [|c body IH]; [reflexivity|].
  rewrite formatted_step, append_assoc, occurrences_step, IH.
  simpl. lia.
Qed.

(** The document shows the body and then one line break. *)
Lemma visible_text_html_body (body : string) :
  visible_text (html_body body) = body +:+ String LF EmptyString.
Proof.
  unfold visible_text, html_body.
  change (render Text ("<html><body>" +:+ ?x)) with (render Text x).
  rewrite render_formatted. reflexivity.
Qed.


Lemma occurrences_html_body (body : string) :
  occurrences "<br>" (html_body body) = (count_char LF body + 1)%nat.
Proof.
  unfold html_body.
  change (occurrences "<br>" ("<html><body>" +:+ ?x)) with (occurrences "<br>" x).
  rewrite occurrences_formatted. reflexivity.
Qed.

End HtmlFacts.

(* ===================================================================== *)
(** * The transport encoding can be undone *)
(* ===================================================================== *)

Module Base64Facts.
Import Base64.

(** A property of all sixty-four sextets, checked one by one. *)
Lemma sextet_cases (P : Z -> Prop) :
  (forall k : nat, (k < 64)%nat -> P (Z.of_nat k)) ->
  forall n, 0 <= n < 64 -> P n.
Proof.
  intros H n Hn. replace n with (Z.of_nat (Z.to_nat n)) by lia.
  apply H. lia.
Qed.

Lemma sextet_char_facts (n : Z) :
  0 <= n < 64 ->
  sextet_of_char (std_of_urlsafe (urlsafe_of_std (char_of_sextet n))) = Some n /\
  Ascii.eqb (std_of_urlsafe (urlsafe_of_std (char_of_sextet n))) PAD = false.
Proof.
  revert n. apply sextet_cases. intros k Hk.
  do 64 (destruct k as [|k]; [split; vm_compute; reflexivity|]).
  lia.
Qed.

Lemma pad_translated : std_of_urlsafe (urlsafe_of_std PAD) = PAD.
Proof. reflexivity. Qed.

Lemma byte_val_range (b : byte) : 0 <= byte_val b < 256.
Proof. unfold byte_val. pose proof (Byte.to_N_bounded b). lia. Qed.

Lemma byte_of_val (b : byte) : byte_of (byte_val b) = Some b.
Proof. unfold byte_of, byte_val. rewrite N2Z.id. apply Byte.of_to_N. Qed.

Ltac sextet n :=
  let Hs := fresh "Hs" in
  let Hp := fresh "Hp" in
  destruct (sextet_char_facts n) as [Hs Hp];
  [ Z.div_mod_to_equations; lia | rewrite ?Hs, ?Hp; clear Hs Hp ].

(** Decoding what [b64encode] wrote, after the alphabet was translated
    forth and back. *)
Lemma decode_encode_upto (k : nat) :
  forall data : list byte, (length data < k)%nat ->
  b64decode (translate std_of_urlsafe (translate urlsafe_of_std (b64encode data)))
  = Some data.
Proof.
  induction k as [|k IH]; intros data Hlen; [lia|].
  destruct data as [|a [|b [|c rest]]].
  - reflexivity.
  - pose proof (byte_val_range a) as Ha.
    cbn [b64encode translate b64decode].
    rewrite !pad_translated, !Ascii.eqb_refl.
    sextet (byte_val a * 16 / 64). sextet ((byte_val a * 16) mod 64).
    replace ((byte_val a * 16 / 64 * 64 + (byte_val a * 16) mod 64) / 16)
      with (byte_val a) by (Z.div_mod_to_equations; lia).
    now rewrite byte_of_val.
  - pose proof (byte_val_range a) as Ha. pose proof (byte_val_range b) as Hb.
    cbn [b64encode translate b64decode].
    rewrite !pad_translated, !Ascii.eqb_refl.
    set (n := (byte_val a * 256 + byte_val b) * 4).
    sextet (n / 4096). sextet (n / 64 mod 64). sextet (n mod 64).
    replace (((n / 4096 * 64 + n / 64 mod 64) * 64 + n mod 64) / 4 / 256)
      with (byte_val a) by (subst n; Z.div_mod_to_equations; lia).
    replace ((((n / 4096 * 64 + n / 64 mod 64) * 64 + n mod 64) / 4) mod 256)
      with (byte_val b) by (subst n; Z.div_mod_to_equations; lia).
    now rewrite !byte_of_val.
  - pose proof (byte_val_range a) as Ha. pose proof (byte_val_range b) as Hb.
    pose proof (byte_val_range c) as Hc.
    cbn [b64encode translate b64decode].
    set (n := byte_val a * 65536 + byte_val b * 256 + byte_val c).
    sextet (n / 262144). sextet (n / 4096 mod 64).
    sextet (n / 64 mod 64). sextet (n mod 64).
    replace (((n / 262144 * 64 + n / 4096 mod 64) * 64 + n / 64 mod 64) * 64 + n mod 64)
      with n by (Z.div_mod_to_equations; lia).
    replace (n / 65536) with (byte_val a) by (subst n; Z.div_mod_to_equations; lia).
    replace (n / 256 mod 256) with (byte_val b) by (subst n; Z.div_mod_to_equations; lia).
    replace (n mod 256) with (byte_val c) by (subst n; Z.div_mod_to_equations; lia).
    rewrite !byte_of_val, IH; [reflexivity|]. simpl in Hlen. lia.
Qed.

Lemma urlsafe_b64decode_encode (data : list byte) :
  urlsafe_b64decode (urlsafe_b64encode data) = Some data.
Proof.
  unfold urlsafe_b64decode, urlsafe_b64encode.
  apply (decode_encode_upto (S (length data))). lia.
Qed.

End Base64Facts.

(* ===================================================================== *)
(** * The composer *)
(* ===================================================================== *)

Module ComposerFacts.
Import PyStr Html Email Server.

Section Setitem.

Context (factory : string -> string -> option exn).

Lemma setitem_ok (name value : string) (m : EmailMessage) :
  has_header name m = false ->
  header_value_ok value = true ->
  factory name value = None ->
  setitem factory name value m =
  Return {| headers := headers m ++ [(name, value)]; content := content m |}.
Proof.
  intros H1 H2 H3. unfold setitem, header_store_parse. now rewrite H1, H2, H3.
Qed.

Lemma setitem_refused (name value : string) (m : EmailMessage) :
  has_header name m = false ->
  header_value_ok value = false ->
  setitem factory name value m = Raise LINE_BREAK_IN_HEADER.
Proof.
  intros H1 H2. unfold setitem, header_store_parse. now rewrite H1, H2.
Qed.

Lemma setitem_unparsed (name value : string) (m : EmailMessage) (e : exn) :
  has_header name m = false ->
  header_value_ok value = true ->
  factory name value = Some e ->
  setitem factory name value m = Raise e.
Proof.
  intros H1 H2 H3. unfold setitem, header_store_parse. now rewrite H1, H2, H3.
Qed.

End Setitem.

Lemma set_content_ok (encode : string -> option exn) (text subtype : string)
  (m : EmailMessage) :
  encode text = None ->
  set_content encode text subtype m =
  Return {| headers := headers m; content := Some (subtype, text) |}.
Proof. intros H. unfold set_content. now rewrite H. Qed.

(** The library takes the document and the three headers of lines 103-106. *)
Lemma make_message_ok (ext : External) (r s b : string) :
  encode_text ext (html_body b) = None ->
  header_value_ok r = true -> header_factory ext "To" r = None ->
  header_factory ext "From" "me" = None ->
  header_value_ok s = true -> header_factory ext "Subject" s = None ->
  make_message ext r s b = Return (composed r s b).
Proof.
  intros Hb Hr Hto Hfrom Hs Hsubj. unfold make_message.
  rewrite set_content_ok by assumption. unfold obind at 1.
  rewrite (setitem_ok _ "To" r) by (reflexivity || assumption). unfold obind at 1.
  rewrite (setitem_ok _ "From" "me") by (reflexivity || assumption). unfold obind at 1.
  rewrite (setitem_ok _ "Subject" s) by (reflexivity || assumption).
  reflexivity.
Qed.

(** The first library call that fails decides what [make_message] raises. *)
Lemma make_message_cases (ext : External) (r s b : string) :
  make_message ext r s b =
  match encode_text ext (html_body b) with
  | Some e => Raise e
  | None =>
      if negb (header_value_ok r) then Raise LINE_BREAK_IN_HEADER else
      match header_factory ext "To" r with
      | Some e => Raise e
      | None =>
          match header_factory ext "From" "me" with
          | Some e => Raise e
          | None =>
              if negb (header_value_ok s) then Raise LINE_BREAK_IN_HEADER else
              match header_factory ext "Subject" s with
              | Some e => Raise e
              | None => Return (composed r s b)
              end
          end
      end
  end.
Proof.
  destruct (encode_text ext (html_body b)) as [e|] eqn:Hb.
  { unfold make_message, set_content. now rewrite Hb. }
  destruct (header_value_ok r) eqn:Hr; cbn [negb].
  2:{ unfold make_message.
      rewrite set_content_ok by assumption. unfold obind at 1.
      now rewrite (setitem_refused _ "To" r) by (reflexivity || assumption). }
  destruct (header_factory ext "To" r) as [e|] eqn:Hto.
  { unfold make_message.
    rewrite set_content_ok by assumption. unfold obind at 1.
    now rewrite (setitem_unparsed _ "To" r _ e) by (reflexivity || assumption). }
  destruct (header_factory ext "From" "me") as [e|] eqn:Hfrom.
  { unfold make_message.
    rewrite set_content_ok by assumption. unfold obind at 1.
    rewrite (setitem_ok _ "To" r) by (reflexivity || assumption). unfold obind at 1.
    now rewrite (setitem_unparsed _ "From" "me" _ e) by (reflexivity || assumption). }
  destruct (header_value_ok s) eqn:Hs; cbn [negb].
  2:{ unfold make_message.
      rewrite set_content_ok by assumption. unfold obind at 1.
      rewrite (setitem_ok _ "To" r) by (reflexivity || assumption). unfold obind at 1.
      rewrite (setitem_ok _ "From" "me") by (reflexivity || assumption). unfold obind at 1.
      now rewrite (setitem_refused _ "Subject" s) by (reflexivity || assumption). }
  destruct (header_factory ext "Subject" s) as [e|] eqn:Hsubj.
  { unfold make_message.
    rewrite set_content_ok by assumption. unfold obind at 1.
    rewrite (setitem_ok _ "To" r) by (reflexivity || assumption). unfold obind at 1.
    rewrite (setitem_ok _ "From" "me") by (reflexivity || assumption). unfold obind at 1.
    now rewrite (setitem_unparsed _ "Subject" s _ e) by (reflexivity || assumption). }
  now apply make_message_ok.
Qed.

Lemma make_message_inv (ext : External) (r s b : string) (m : EmailMessage) :
  make_message ext r s b = Return m ->
  m = composed r s b /\
  encode_text ext (html_body b) = None /\
  header_value_ok r = true /\ header_factory ext "To" r = None /\
  header_factory ext "From" "me" = None /\
  header_value_ok s = true /\ header_factory ext "Subject" s = None.
Proof.
  rewrite make_message_cases.
  destruct (encode_text ext (html_body b)); [discriminate|].
  destruct (header_value_ok r); [|discriminate]. cbn [negb].
  destruct (header_factory ext "To" r); [discriminate|].
  destruct (header_factory ext "From" "me"); [discriminate|].
  destruct (header_value_ok s); [|discriminate]. cbn [negb].
  destruct (header_factory ext "Subject" s); [discriminate|].
  intros H. injection H as <-. auto 10.
Qed.

Lemma compose_ok (ext : External) (r s b : string) (raw : list byte) :
  encode_text ext (html_body b) = None ->
  header_value_ok r = true -> header_factory ext "To" r = None ->
  header_factory ext "From" "me" = None ->
  header_value_ok s = true -> header_factory ext "Subject" s = None ->
  as_bytes ext (composed r s b) = Return raw ->
  compose ext r s b = Return (Base64.urlsafe_b64encode raw).
Proof.
  intros Hb Hr Hto Hfrom Hs Hsubj Hraw. unfold compose.
  rewrite make_message_ok by assumption.
  unfold obind at 1. unfold encoded_message. now rewrite Hraw.
Qed.

Lemma compose_inv (ext : External) (r s b payload : string) :
  compose ext r s b = Return payload ->
  (exists raw, as_bytes ext (composed r s b) = Return raw /\
               payload = Base64.urlsafe_b64encode raw) /\
  encode_text ext (html_body b) = None /\
  header_value_ok r = true /\ header_factory ext "To" r = None /\
  header_factory ext "From" "me" = None /\
  header_value_ok s = true /\ header_factory ext "Subject" s = None.
Proof.
  unfold compose. intros H.
  destruct (make_message ext r s b) as [m|e] eqn:E; [|discriminate].
  apply make_message_inv in E as (-> & Hrest).
  split; [|exact Hrest].
  unfold obind at 1 in H. unfold encoded_message in H.
  destruct (as_bytes ext (composed r s b)) as [raw|e]; [|discriminate].
  exists raw. split; [reflexivity|]. simpl in H. now injection H.
Qed.

End ComposerFacts.

(* ===================================================================== *)
(** * The mail session *)
(* ===================================================================== *)

Module SessionFacts.
Import PyStr Server.

Lemma emitted_app {A} (m : M A) (st : State) (evs : list Event) :
  trace (final (m st)) = trace st ++ evs -> emitted m st = evs.
Proof. intros H. unfold emitted. rewrite H. apply drop_app_length. Qed.

Lemma append_inj_l (p a b : string) : p +:+ a = p +:+ b -> a = b.
Proof.
  induction p as [|c p IH]; [trivial|].
  intros H. apply IH.
  change (String c (p +:+ a) = String c (p +:+ b)) in H. now injection H.
Qed.

(** The token and the client secret are two files. *)
Lemma paths_differ (ext : External) : TOKEN_PATH ext <> CREDENTIALS_PATH ext.
Proof.
  unfold TOKEN_PATH, CREDENTIALS_PATH, path_join.
  destruct (negb (truthy (SCRIPT_DIR ext)) || ends_with_slash (SCRIPT_DIR ext));
    intros H; apply append_inj_l in H; try apply append_inj_l in H; discriminate.
Qed.

Lemma token_is_not_secret (ext : External) :
  String.eqb (TOKEN_PATH ext) (CREDENTIALS_PATH ext) = false.
Proof. apply String.eqb_neq, paths_differ. Qed.

(** Unfolding the monad. *)
Ltac run :=
  unfold bind, ret, raise, lift, event, get_state, modify, result, final in *;
  simpl in *.

Lemma extends_ret {A} (a : A) : extends (ret a).
Proof. intros st. exists []. simpl. now rewrite app_nil_r. Qed.

Lemma extends_raise {A} (e : exn) : extends (@raise A e).
Proof. intros st. exists []. simpl. now rewrite app_nil_r. Qed.

Lemma extends_lift {A} (o : Outcome A) : extends (lift o).
Proof. intros st. exists []. simpl. now rewrite app_nil_r. Qed.

Lemma extends_get_state : extends get_state.
Proof. intros st. exists []. simpl. now rewrite app_nil_r. Qed.

Lemma extends_event (e : Event) : extends (event e).
Proof. intros st. exists [e]. reflexivity. Qed.

Lemma extends_modify (f : State -> State) :
  (forall st, trace (f st) = trace st) -> extends (modify f).
Proof. intros H st. exists []. simpl. now rewrite H, app_nil_r. Qed.

Lemma extends_bind {A B} (m : M A) (k : A -> M B) :
  extends m -> (forall a, extends (k a)) -> extends (bind m k).
Proof.
  intros Hm Hk st. unfold bind, final in *.
  destruct (Hm st) as [evs1 H1].
  destruct (m st) as [[a|e] st1]; simpl in *.
  - destruct (Hk a st1) as [evs2 H2]. unfold final in H2.
    exists (evs1 ++ evs2). now rewrite H2, H1, app_assoc.
  - now exists evs1.
Qed.

Ltac extends_tac :=
  repeat first
    [ apply extends_ret | apply extends_raise | apply extends_lift
    | apply extends_get_state | apply extends_event
    | apply extends_modify; intros; reflexivity
    | apply extends_bind; [|intros ?]
    | match goal with
      | |- extends (match ?x with _ => _ end) => destruct x
      end ].

Lemma get_gmail_service_extends (ext : External) : extends (get_gmail_service ext).
Proof.
  unfold get_gmail_service, login, acquire, from_authorized_user_file,
    from_client_secrets_file, read_file, path_exists, creds_refresh,
    flow_run_local_server, discovery_build, write_file.
  extends_tac.
Qed.

End SessionFacts.

(* ===================================================================== *)
(** * Properties of the mail session *)
(* ===================================================================== *)

Import PyStr Html Email Server.
Import HtmlFacts Base64Facts ComposerFacts SessionFacts.

Lemma get_gmail_service_no_files (ext : External) (st : State) :
  files st !! TOKEN_PATH ext = None ->
  files st !! CREDENTIALS_PATH ext = None ->
  get_gmail_service ext st =
  (Raise (Exn FileNotFoundError MISSING_SECRET),
   emit (EvPathExists (CREDENTIALS_PATH ext)) (emit (EvPathExists (TOKEN_PATH ext)) st)).
Proof.
  intros Ht Hc.
  unfold get_gmail_service, login, acquire, path_exists. run.
  rewrite Ht. run. rewrite Hc. reflexivity.
Qed.

Lemma get_gmail_service_refresh (ext : External) (st : State)
  (text : string) (c c' : Credentials) :
  files st !! TOKEN_PATH ext = Some text ->
  parse_authorized_user ext text SCOPES = Return c ->
  expired c = true ->
  Py.truth_opt (refresh_token c) = true ->
  refresh ext c = Return c' ->
  let after_refresh :=
    emit (EvRefresh c) (emit (EvReadFile (TOKEN_PATH ext))
      (emit (EvPathExists (TOKEN_PATH ext)) st)) in
  get_gmail_service ext st =
  match open_for_writing ext (TOKEN_PATH ext) with
  | Some e => (Raise e, after_refresh)
  | None =>
      let stored :=
        set_files (<[TOKEN_PATH ext := to_json ext c']> (files st))
          (emit (EvWriteFile (TOKEN_PATH ext) (to_json ext c')) after_refresh) in
      (build ext "gmail" "v1" c', emit (EvBuild c') stored)
  end.
Proof.
  intros Ht Hp He Hr Hf.
  unfold get_gmail_service, login, from_authorized_user_file, read_file,
    path_exists, creds_refresh, write_file, discovery_build. run.
  rewrite Ht. run. rewrite Ht, Hp.
  unfold valid. rewrite He. destruct (token c); run;
    rewrite Hr, Hf; destruct (open_for_writing ext (TOKEN_PATH ext)); reflexivity.
Qed.

(** C7.  With neither a token file nor a client-secret file,
    [get_gmail_service] raises the missing-client-secret error
    ([FileNotFoundError] with the message about [credentials.json]); up to
    that point it has only asked whether the two files exist, so no network
    event precedes the failure. *)
Theorem C7_missing_client_secret (ext : External) (st : State) :
  files st !! TOKEN_PATH ext = None ->
  files st !! CREDENTIALS_PATH ext = None ->
  result (get_gmail_service ext st) = Raise (Exn FileNotFoundError MISSING_SECRET) /\
  emitted (get_gmail_service ext) st =
    [EvPathExists (TOKEN_PATH ext); EvPathExists (CREDENTIALS_PATH ext)] /\
  existsb is_network (emitted (get_gmail_service ext) st) = false.
Proof.
  intros Ht Hc.
  assert (He : emitted (get_gmail_service ext) st =
               [EvPathExists (TOKEN_PATH ext); EvPathExists (CREDENTIALS_PATH ext)]).
  { apply emitted_app. rewrite get_gmail_service_no_files by assumption.
    simpl. now rewrite <- app_assoc. }
  rewrite He. rewrite get_gmail_service_no_files by assumption. auto.
Qed.

Lemma C7_missing_client_secret_witness :
  result (get_gmail_service Example.ext Example.blank)
  = Raise (Exn FileNotFoundError MISSING_SECRET) /\
  emitted (get_gmail_service Example.ext) Example.blank =
    [EvPathExists "/srv/email_generator/token.json";
     EvPathExists "/srv/email_generator/credentials.json"] /\
  existsb is_network (emitted (get_gmail_service Example.ext) Example.blank) = false.
Proof.
  apply (C7_missing_client_secret Example.ext Example.blank); reflexivity.
Defined.

(** C6.  When the token file holds a record that is expired and carries a
    refresh token, and the refresh succeeds, [get_gmail_service] reads the
    token, refreshes it, stores it and builds the service: no event of the
    interactive consent flow occurs (the client secret is not read, no
    local server is run). *)
Theorem C6_refresh_never_acquires (ext : External) (st : State)
  (text : string) (c c' : Credentials) :
  files st !! TOKEN_PATH ext = Some text ->
  parse_authorized_user ext text SCOPES = Return c ->
  expired c = true ->
  Py.truth_opt (refresh_token c) = true ->
  refresh ext c = Return c' ->
  existsb (is_acquirer (CREDENTIALS_PATH ext)) (emitted (get_gmail_service ext) st)
    = false /\
  emitted (get_gmail_service ext) st =
    [EvPathExists (TOKEN_PATH ext); EvReadFile (TOKEN_PATH ext); EvRefresh c] ++
    match open_for_writing ext (TOKEN_PATH ext) with
    | Some _ => []
    | None => [EvWriteFile (TOKEN_PATH ext) (to_json ext c'); EvBuild c']
    end /\
  result (get_gmail_service ext st) =
    match open_for_writing ext (TOKEN_PATH ext) with
    | Some e => Raise e
    | None => build ext "gmail" "v1" c'
    end.
Proof.
  intros Ht Hp He Hr Hf.
  pose proof (get_gmail_service_refresh ext st text c c' Ht Hp He Hr Hf) as Hrun.
  simpl in Hrun.
  assert (Hev : emitted (get_gmail_service ext) st =
    [EvPathExists (TOKEN_PATH ext); EvReadFile (TOKEN_PATH ext); EvRefresh c] ++
    match open_for_writing ext (TOKEN_PATH ext) with
    | Some _ => []
    | None => [EvWriteFile (TOKEN_PATH ext) (to_json ext c'); EvBuild c']
    end).
  { apply emitted_app. rewrite Hrun.
    destruct (open_for_writing ext (TOKEN_PATH ext)); simpl;
      now rewrite <- !app_assoc. }
  rewrite Hev, Hrun. split; [|split; [reflexivity|]].
  - destruct (open_for_writing ext (TOKEN_PATH ext)); simpl;
      now rewrite token_is_not_secret.
  - now destruct (open_for_writing ext (TOKEN_PATH ext)).
Qed.

Lemma C6_refresh_never_acquires_witness :
  existsb (is_acquirer (CREDENTIALS_PATH Example.ext))
    (emitted (get_gmail_service Example.ext) Example.with_token) = false /\
  emitted (get_gmail_service Example.ext) Example.with_token =
    [EvPathExists "/srv/email_generator/token.json";
     EvReadFile "/srv/email_generator/token.json";
     EvRefresh Example.stored_creds;
     EvWriteFile "/srv/email_generator/token.json" "ya29.new";
     EvBuild Example.fresh_creds] /\
  result (get_gmail_service Example.ext Example.with_token) =
    Return {| api := "gmail"; version := "v1"; credentials := Example.fresh_creds |}.
Proof.
  apply (C6_refresh_never_acquires Example.ext Example.with_token
           "{token}" Example.stored_creds Example.fresh_creds); reflexivity.
Defined.

(* ===================================================================== *)
(** * Properties of [send_email] *)
(* ===================================================================== *)

Lemma starts_with_append (x rest : string) : starts_with x (x +:+ rest) = true.
Proof.
  induction x as [|c x IH]; [reflexivity|].
  change (Ascii.eqb c c && starts_with x (x +:+ rest) = true).
  now rewrite Ascii.eqb_refl, IH.
Qed.

Lemma contains_here (x rest : string) : contains x (x +:+ rest) = true.
Proof.
  destruct (x +:+ rest) eqn:E; simpl; rewrite <- E, starts_with_append; reflexivity.
Qed.

Lemma contains_after (x before rest : string) :
  contains x rest = true -> contains x (before +:+ rest) = true.
Proof.
  intros H. induction before as [|c before IH]; [exact H|].
  change (contains x (String c (before +:+ rest)) = true).
  simpl. rewrite IH. apply orb_true_r.
Qed.

Lemma contains_middle (x before rest : string) :
  contains x (before +:+ x +:+ rest) = true.
Proof. apply contains_after, contains_here. Qed.

Lemma contains_end (x before : string) : contains x (before +:+ x) = true.
Proof.
  rewrite <- (append_empty_r x) at 2. apply contains_middle.
Qed.

(** What the [except] clauses of [send_email] do with an exception. *)
Lemma send_email_handles (ext : External) (r s b : string) (st : State) :
  send_email ext r s b st =
  match send_email_suite ext r s b st with
  | (Return out, st') => (Return out, st')
  | (Raise e, st') =>
      if is_instance e GoogleHttpError then
        (Return ("Failed to send email. Error: " +:+ exn_str e),
         emit (EvPrint ("An error occurred: " +:+ exn_str e)) st')
      else
        (Return ("An unexpected error occurred: " +:+ exn_str e),
         emit (EvPrint ("An unexpected error occurred: " +:+ exn_str e)) st')
  end.
Proof.
  unfold send_email, try_except.
  destruct (send_email_suite ext r s b st) as [[out|e] st']; [reflexivity|].
  unfold dispatch. destruct (is_instance e GoogleHttpError); reflexivity.
Qed.

(** The suite once the session is there and the payload is composed. *)
Lemma send_email_suite_submits (ext : External) (r s b : string) (st st1 : State)
  (svc : Service) (payload : string) :
  get_gmail_service ext st = (Return svc, st1) ->
  compose ext r s b = Return payload ->
  send_email_suite ext r s b st =
  match messages_send ext svc "me" payload with
  | Return answer =>
      match Py.getitem answer "id" with
      | Return id =>
          (Return ("Successfully sent email to " +:+ r +:+ " with Message ID: " +:+ str ext id),
           emit (EvPrint ("Message Id: " +:+ str ext id))
             (emit (EvGmailSend "me" payload) st1))
      | Raise e => (Raise e, emit (EvGmailSend "me" payload) st1)
      end
  | Raise e => (Raise e, emit (EvGmailSend "me" payload) st1)
  end.
Proof.
  intros Hs Hc. unfold send_email_suite, execute_send, print. unfold bind at 1.
  rewrite Hs. run. rewrite Hc.
  destruct (messages_send ext svc "me" payload) as [answer|e]; [|reflexivity].
  destruct (Py.getitem answer "id"); reflexivity.
Qed.

(** C5.  [send_email] always returns a string.  When the provider accepts
    the message and answers with an identifier, the string names the
    recipient and that identifier; an exception raised anywhere in the
    [try] suite is turned into a failure string that embeds its text:
    [Failed to send email. Error: ...] for the client library's
    [HttpError], [An unexpected error occurred: ...] for any other. *)
Theorem C5_send_email_outcomes (ext : External) (r s b : string) (st : State) :
  (exists out, result (send_email ext r s b st) = Return out) /\
  (forall svc st1 payload d i,
      get_gmail_service ext st = (Return svc, st1) ->
      compose ext r s b = Return payload ->
      messages_send ext svc "me" payload = Return (JObj d) ->
      d !! "id" = Some (JStr i) ->
      let out := "Successfully sent email to " +:+ r +:+ " with Message ID: " +:+ i in
      result (send_email ext r s b st) = Return out /\
      contains r out = true /\ contains i out = true) /\
  (forall e st',
      send_email_suite ext r s b st = (Raise e, st') ->
      let out :=
        if is_instance e GoogleHttpError
        then "Failed to send email. Error: " +:+ exn_str e
        else "An unexpected error occurred: " +:+ exn_str e in
      result (send_email ext r s b st) = Return out /\
      contains (exn_str e) out = true).
Proof.
  split; [|split].
  - rewrite send_email_handles.
    destruct (send_email_suite ext r s b st) as [[out|e] st']; [now exists out|].
    destruct (is_instance e GoogleHttpError); eexists; reflexivity.
  - intros svc st1 payload d i Hs Hc Hm Hi out.
    rewrite send_email_handles, (send_email_suite_submits _ _ _ _ _ _ _ _ Hs Hc), Hm.
    unfold Py.getitem. rewrite Hi. subst out. split; [reflexivity|]. split.
    + apply contains_middle.
    + apply contains_after, contains_after, contains_end.
  - intros e st' He out. rewrite send_email_handles, He. subst out.
    destruct (is_instance e GoogleHttpError); (split; [reflexivity|]);
      apply contains_end.
Qed.

Lemma C5_send_email_outcomes_witness :
  result (send_email Example.ext "ann@example.com" "Hi" "See you" Example.with_token)
  = Return "Successfully sent email to ann@example.com with Message ID: 18c2f0a1" /\
  result (send_email Example.refusing "ann@example.com" "Hi" "See you" Example.with_token)
  = Return "Failed to send email. Error: <HttpError 403 Insufficient Permission>" /\
  result (send_email Example.ext "ann@example.com" "Hi" "See you" Example.blank)
  = Return ("An unexpected error occurred: " +:+ MISSING_SECRET).
Proof.
  split; [|split].
  - refine (proj1 (proj1 (proj2 (C5_send_email_outcomes Example.ext
              "ann@example.com" "Hi" "See you" Example.with_token))
              _ _ _ _ "18c2f0a1" _ _ _ _)); reflexivity.
  - refine (proj1 (proj2 (proj2 (C5_send_email_outcomes Example.refusing
              "ann@example.com" "Hi" "See you" Example.with_token))
              (Exn GoogleHttpError "<HttpError 403 Insufficient Permission>") _ _));
      reflexivity.
  - refine (proj1 (proj2 (proj2 (C5_send_email_outcomes Example.ext
              "ann@example.com" "Hi" "See you" Example.blank))
              (Exn FileNotFoundError MISSING_SECRET) _ _));
      reflexivity.
Defined.

(* ===================================================================== *)
(** * Properties of the composer *)
(* ===================================================================== *)

(** What [send_email] does once the session is there and the composer has
    failed: it prints and returns the failure string. *)
Lemma send_email_reports (ext : External) (r s b : string) (st st1 : State)
  (svc : Service) (e : exn) :
  get_gmail_service ext st = (Return svc, st1) ->
  compose ext r s b = Raise e ->
  exists out line,
    send_email ext r s b st = (Return out, emit (EvPrint line) st1) /\
    contains (exn_str e) out = true.
Proof.
  intros Hs Hc.
  assert (Hsuite : send_email_suite ext r s b st = (Raise e, st1)).
  { unfold send_email_suite. unfold bind at 1. rewrite Hs.
    unfold bind at 1, lift. now rewrite Hc. }
  rewrite send_email_handles, Hsuite.
  destruct (is_instance e GoogleHttpError); do 2 eexists;
    (split; [reflexivity|apply contains_end]).
Qed.

(** C8, as the code has it.  The composer is a function of the three
    strings and of the message library, and it is not total.  It returns a
    payload exactly when the library can encode the HTML document, the
    recipient and the subject are of at most one line, the library's header
    parser accepts the three header values and the library serialises the
    message; the payload is then the URL-safe base64 of the serialised
    bytes.  The program's own steps never fail: whatever the composer raises
    is the refusal of a value of more than one line or an exception of the
    encoding of the document, of the header parser or of the serialiser.  A
    recipient of more than one line gives that refusal unless the document
    was refused before, and a subject of more than one line gives it or an
    earlier exception.  Composing emits no event: inside [send_email], after
    the session is obtained, a payload is followed by its submission and one
    printed line only, and a failure of the composer by one printed line
    only, the failure coming back as a string that embeds the text of the
    exception. *)
Theorem C8_composer_total (ext : External) (r s b : string) :
  (forall payload,
      compose ext r s b = Return payload <->
      encode_text ext (html_body b) = None /\
      header_value_ok r = true /\ header_factory ext "To" r = None /\
      header_factory ext "From" "me" = None /\
      header_value_ok s = true /\ header_factory ext "Subject" s = None /\
      exists raw, as_bytes ext (composed r s b) = Return raw /\
                  payload = Base64.urlsafe_b64encode raw) /\
  (forall e,
      compose ext r s b = Raise e ->
      e = LINE_BREAK_IN_HEADER \/
      encode_text ext (html_body b) = Some e \/
      header_factory ext "To" r = Some e \/
      header_factory ext "From" "me" = Some e \/
      header_factory ext "Subject" s = Some e \/
      as_bytes ext (composed r s b) = Raise e) /\
  (encode_text ext (html_body b) = None ->
   header_value_ok r = false ->
   compose ext r s b = Raise LINE_BREAK_IN_HEADER) /\
  (header_value_ok s = false -> exists e, compose ext r s b = Raise e) /\
  (forall st svc st1 payload,
      get_gmail_service ext st = (Return svc, st1) ->
      compose ext r s b = Return payload ->
      exists line,
        emitted (send_email ext r s b) st =
        emitted (get_gmail_service ext) st ++ [EvGmailSend "me" payload; EvPrint line]) /\
  (forall st svc st1 e,
      get_gmail_service ext st = (Return svc, st1) ->
      compose ext r s b = Raise e ->
      exists out line,
        send_email ext r s b st = (Return out, emit (EvPrint line) st1) /\
        contains (exn_str e) out = true).
Proof.
  split; [|split; [|split; [|split; [|split]]]].
  - intros payload. split.
    + intros H.
      apply compose_inv in H as ((raw & Hraw & ->) & Hb & Hr & Hto & Hfrom & Hs & Hsubj).
      repeat (split; [assumption|]). now exists raw.
    + intros (Hb & Hr & Hto & Hfrom & Hs & Hsubj & raw & Hraw & ->).
      now apply compose_ok.
  - intros e. unfold compose. rewrite make_message_cases.
    destruct (encode_text ext (html_body b)) as [e0|];
      [intros H; injection H as <-; auto|].
    destruct (header_value_ok r); cbn [negb];
      [|intros H; injection H as <-; now left].
    destruct (header_factory ext "To" r) as [e1|];
      [intros H; injection H as <-; auto|].
    destruct (header_factory ext "From" "me") as [e2|];
      [intros H; injection H as <-; auto|].
    destruct (header_value_ok s); cbn [negb];
      [|intros H; injection H as <-; now left].
    destruct (header_factory ext "Subject" s) as [e3|];
      [intros H; injection H as <-; auto 10|].
    unfold obind, encoded_message.
    destruct (as_bytes ext (composed r s b)) as [raw|e4]; [discriminate|].
    intros H. injection H as <-. auto 10.
  - intros Hb Hr. unfold compose. rewrite make_message_cases, Hb, Hr. reflexivity.
  - intros Hs. destruct (compose ext r s b) as [payload|e] eqn:Hc; [|now exists e].
    apply compose_inv in Hc as (_ & _ & _ & _ & _ & Hs' & _). congruence.
  - intros st svc st1 payload Hsess Hc.
    destruct (get_gmail_service_extends ext st) as [evs Hevs].
    rewrite (emitted_app _ _ _ Hevs).
    unfold final in Hevs. rewrite Hsess in Hevs. simpl in Hevs.
    assert (Hrun : exists o line,
               send_email ext r s b st =
               (o, emit (EvPrint line) (emit (EvGmailSend "me" payload) st1))).
    { rewrite send_email_handles, (send_email_suite_submits _ _ _ _ _ _ _ _ Hsess Hc).
      destruct (messages_send ext svc "me" payload) as [answer|e];
        [destruct (Py.getitem answer "id") as [id|e]|];
        try destruct (is_instance e GoogleHttpError); eauto. }
    destruct Hrun as (o & line & Hrun).
    exists line. apply emitted_app. unfold final. rewrite Hrun. simpl.
    rewrite Hevs. now rewrite <- !app_assoc.
  - intros st svc st1 e. apply send_email_reports.
Qed.

Lemma C8_composer_total_witness :
  compose Example.ext "ann@example.com" EmptyString EmptyString =
    Return (Base64.urlsafe_b64encode
              (Example.message_as_bytes
                 (composed "ann@example.com" EmptyString EmptyString))) /\
  (exists line,
      emitted (send_email Example.ext "ann@example.com" EmptyString EmptyString)
        Example.with_token =
      emitted (get_gmail_service Example.ext) Example.with_token ++
      [EvGmailSend "me"
         (Base64.urlsafe_b64encode
            (Example.message_as_bytes
               (composed "ann@example.com" EmptyString EmptyString)));
       EvPrint line]) /\
  header_factory Scenario.strict "To" "ann@" =
    Some (Exn Exception_ "string index out of range") /\
  (exists out line,
      send_email Scenario.strict "ann@" "Hi" "See you" Scenario.fresh_token =
        (Return out,
         emit (EvPrint line)
           (final (get_gmail_service Scenario.strict Scenario.fresh_token))) /\
      contains "string index out of range" out = true) /\
  compose Example.ext ("ann@example.com" +:+ String LF "eve@example.com") "Hi" "See you" =
    Raise LINE_BREAK_IN_HEADER /\
  exists e,
    compose Example.ext "ann@example.com" ("Hi" +:+ String LF "there") "See you" = Raise e.
Proof.
  pose proof (C8_composer_total Example.ext "ann@example.com" EmptyString EmptyString)
    as (Hiff & _ & _ & _ & Hsend & _).
  assert (Hc : compose Example.ext "ann@example.com" EmptyString EmptyString =
               Return (Base64.urlsafe_b64encode
                         (Example.message_as_bytes
                            (composed "ann@example.com" EmptyString EmptyString)))).
  { apply Hiff. repeat (split; [reflexivity|]). eexists. split; reflexivity. }
  split; [exact Hc|].
  split; [eapply Hsend; [reflexivity|exact Hc]|].
  pose proof (C8_composer_total Scenario.strict "ann@" "Hi" "See you")
    as (_ & Horigin & _ & _ & _ & Hfail).
  split.
  { destruct (Horigin (Exn Exception_ "string index out of range") eq_refl)
      as [H|[H|[H|[H|[H|H]]]]]; try discriminate H. exact H. }
  split.
  { apply (Hfail Scenario.fresh_token
             {| api := "gmail"; version := "v1"; credentials := Example.fresh_creds |}
             (final (get_gmail_service Scenario.strict Scenario.fresh_token))
             (Exn Exception_ "string index out of range")); reflexivity. }
  split.
  - apply (C8_composer_total Example.ext
             ("ann@example.com" +:+ String LF "eve@example.com") "Hi" "See you");
      reflexivity.
  - apply (C8_composer_total Example.ext "ann@example.com"
             ("Hi" +:+ String LF "there") "See you").
    reflexivity.
Defined.

(** C8 as specified fails: a subject of two lines is refused by
    the message library, the composer yields no payload, and [send_email]
    reports the failure without submitting anything. *)
Lemma C8_counterexample :
  compose Example.ext "ann@example.com"
    ("Hello" +:+ String LF "Bcc: eve@example.com") "See you" =
  Raise (Exn ValueError
           "Header values may not contain linefeed or carriage return characters") /\
  send_email Example.ext "ann@example.com"
    ("Hello" +:+ String LF "Bcc: eve@example.com") "See you" Example.with_token =
  (Return "An unexpected error occurred: Header values may not contain linefeed or carriage return characters",
   emit (EvPrint "An unexpected error occurred: Header values may not contain linefeed or carriage return characters")
     (final (get_gmail_service Example.ext Example.with_token))).
Proof. split; reflexivity. Qed.




(** C2, as the code has it.  The document of a composed message holds one
    [<br>] for every line feed of the body and one more, the one the
    template appends. *)
Theorem C2_line_break_markers (ext : External) (r s b : string) (m : EmailMessage) :
  make_message ext r s b = Return m ->
  exists html,
    content m = Some ("html", html) /\
    occurrences "<br>" html = (count_char LF b + 1)%nat.
Proof.
  intros H. apply make_message_inv in H as (-> & _).
  exists (html_body b). split; [reflexivity|]. apply occurrences_html_body.
Qed.

Lemma C2_line_break_markers_witness :
  exists html,
    content (composed "ann@example.com" "Hi" ("one" +:+ String LF "two"))
      = Some ("html", html) /\
    occurrences "<br>" html = (count_char LF ("one" +:+ String LF "two") + 1)%nat.
Proof.
  apply (C2_line_break_markers Example.ext "ann@example.com" "Hi"
           ("one" +:+ String LF "two")).
  reflexivity.
Defined.

(** C2 as specified fails: a body without a line feed gives a
    document with one marker. *)
Lemma C2_counterexample :
  make_message Example.ext "ann@example.com" "Hi" "See you" =
    Return (composed "ann@example.com" "Hi" "See you") /\
  content (composed "ann@example.com" "Hi" "See you") =
    Some ("html", "<html><body>See you<br></body></html>") /\
  count_char LF "See you" = 0%nat /\
  occurrences "<br>" "<html><body>See you<br></body></html>" = 1%nat.
Proof. repeat split. Qed.

(* ===================================================================== *)
(** * Properties of the enrichment tools *)
(* ===================================================================== *)

Lemma enrich_without_key (ext : External) (params : gmap string string) (st : State) :
  Py.truth_opt (APOLLO_API_KEY (globals st)) = false ->
  _enrich_person ext params st = (Raise KEY_NOT_SET, st).
Proof.
  intros H. unfold _enrich_person. run. now rewrite H.
Qed.

(** With a key, the request is sent once and whatever happens is reported
    as a string. *)
Lemma enrich_with_key (ext : External) (params : gmap string string) (st : State) :
  Py.truth_opt (APOLLO_API_KEY (globals st)) = true ->
  exists out,
    _enrich_person ext params st =
    (Return out,
     emit (EvHttpPost api_endpoint params
             (request_headers (default EmptyString (APOLLO_API_KEY (globals st))))) st).
Proof.
  intros H. unfold _enrich_person. run. rewrite H. simpl.
  set (headers := request_headers _).
  unfold try_except. run.
  destruct (post ext api_endpoint params headers) as [r|msg|msg];
    [|eexists; reflexivity|eexists; reflexivity].
  assert (Hcatch : forall e st',
             exists out,
               dispatch e
                 [ (RequestsHTTPError, fun http_err : exn =>
                      ret ("HTTP error occurred: " +:+ exn_str http_err +:+ " - " +:+ text r));
                   (RequestException, fun req_err : exn =>
                      ret ("Request error occurred: " +:+ exn_str req_err));
                   (Exception_, fun e : exn =>
                      ret ("An unexpected error occurred: " +:+ exn_str e)) ] st'
               = (Return out, st')).
  { intros [[] msg] st'; eexists; reflexivity. }
  destruct (raise_for_status r) as [[]|e]; [|apply Hcatch].
  destruct (json_ r) as [data|e]; [|apply Hcatch].
  destruct (has_email data) as [[]|e]; [| eexists; reflexivity |apply Hcatch].
  destruct (Py.getitem data "person") as [person|e]; [|apply Hcatch].
  destruct (Py.getitem person "email") as [email|e]; [|apply Hcatch].
  eexists; reflexivity.
Qed.

Lemma emitted_nothing {A} (m : M A) (st : State) (o : Outcome A) :
  m st = (o, st) -> emitted m st = [].
Proof.
  intros H. apply emitted_app. unfold final. rewrite H. simpl.
  now rewrite app_nil_r.
Qed.

Lemma emitted_one {A} (m : M A) (st : State) (o : Outcome A) (e : Event) :
  m st = (o, emit e st) -> emitted m st = [e].
Proof. intros H. apply emitted_app. unfold final. now rewrite H. Qed.

(** C3, as the code has it.  With a key configured, either enrichment tool
    returns a string whatever the service does.  With the key missing or
    empty the tool raises [ValueError] and the caller of the tool function
    gets the exception, not a string; the state is untouched, so no request
    was issued. *)
Theorem C3_enrichment_tools_key_guard (ext : External) (st : State)
  (first last company url : string) :
  if Py.truth_opt (APOLLO_API_KEY (globals st)) then
    (exists out,
        result (find_email_by_name_and_company ext first last company st) = Return out) /\
    (exists out, result (find_email_by_linkedin ext url st) = Return out)
  else
    find_email_by_name_and_company ext first last company st = (Raise KEY_NOT_SET, st) /\
    find_email_by_linkedin ext url st = (Raise KEY_NOT_SET, st) /\
    emitted (find_email_by_name_and_company ext first last company) st = [] /\
    emitted (find_email_by_linkedin ext url) st = [].
Proof.
  unfold find_email_by_name_and_company, find_email_by_linkedin.
  destruct (Py.truth_opt (APOLLO_API_KEY (globals st))) eqn:Hkey.
  - split.
    + destruct (enrich_with_key ext (name_and_company_params first last company) st Hkey)
        as [out H].
      exists out. unfold result. now rewrite H.
    + destruct (enrich_with_key ext (linkedin_params url) st Hkey) as [out H].
      exists out. unfold result. now rewrite H.
  - pose proof (enrich_without_key ext (name_and_company_params first last company) st Hkey).
    pose proof (enrich_without_key ext (linkedin_params url) st Hkey).
    repeat split; try assumption; eapply emitted_nothing; eassumption.
Qed.

(** C3 as specified fails: without a key the tools do not return a
    string, they raise. *)
Lemma C3_counterexample :
  result (find_email_by_linkedin Example.ext "https://www.linkedin.com/in/ann"
            Example.blank) = Raise KEY_NOT_SET /\
  result (find_email_by_name_and_company Example.ext "Ann" "Lee" "Acme"
            Example.blank) = Raise KEY_NOT_SET.
Proof. split; reflexivity. Qed.

(** C9.  A request of [find_email_by_name_and_company] carries exactly the
    fields [first_name], [last_name] and [organization_name]; a request of
    [find_email_by_linkedin] carries exactly [person_linkedin_url]; the two
    sets of fields are disjoint.  Each tool sends one request when a key is
    configured and none otherwise. *)
Theorem C9_query_shapes (ext : External) (st : State)
  (first last company url : string) :
  let headers :=
    request_headers (default EmptyString (APOLLO_API_KEY (globals st))) in
  emitted (find_email_by_name_and_company ext first last company) st =
    (if Py.truth_opt (APOLLO_API_KEY (globals st))
     then [EvHttpPost api_endpoint (name_and_company_params first last company) headers]
     else []) /\
  emitted (find_email_by_linkedin ext url) st =
    (if Py.truth_opt (APOLLO_API_KEY (globals st))
     then [EvHttpPost api_endpoint (linkedin_params url) headers]
     else []) /\
  dom (name_and_company_params first last company) =
    ({[ "first_name"; "last_name"; "organization_name" ]} : gset string) /\
  dom (linkedin_params url) = ({[ "person_linkedin_url" ]} : gset string) /\
  dom (name_and_company_params first last company) ## dom (linkedin_params url) /\
  name_and_company_params first last company !! "first_name" = Some first /\
  name_and_company_params first last company !! "last_name" = Some last /\
  name_and_company_params first last company !! "organization_name" = Some company /\
  linkedin_params url !! "person_linkedin_url" = Some url.
Proof.
  intros headers.
  assert (Hd1 : dom (name_and_company_params first last company) =
                ({[ "first_name"; "last_name"; "organization_name" ]} : gset string)).
  { unfold name_and_company_params. rewrite !dom_insert_L, dom_singleton_L.
    set_solver. }
  assert (Hd2 : dom (linkedin_params url) = ({[ "person_linkedin_url" ]} : gset string)).
  { unfold linkedin_params. now rewrite dom_singleton_L. }
  unfold find_email_by_name_and_company, find_email_by_linkedin.
  split; [|split; [|split; [exact Hd1|split; [exact Hd2|split]]]].
  - destruct (Py.truth_opt (APOLLO_API_KEY (globals st))) eqn:Hkey.
    + destruct (enrich_with_key ext (name_and_company_params first last company) st Hkey)
        as [out H].
      eapply emitted_one; eassumption.
    + eapply emitted_nothing, enrich_without_key; assumption.
  - destruct (Py.truth_opt (APOLLO_API_KEY (globals st))) eqn:Hkey.
    + destruct (enrich_with_key ext (linkedin_params url) st Hkey) as [out H].
      eapply emitted_one; eassumption.
    + eapply emitted_nothing, enrich_without_key; assumption.
  - rewrite Hd1, Hd2. set_unfold. intros k Hk ->.
    destruct Hk as [[Hk|Hk]|Hk]; discriminate.
  - unfold name_and_company_params, linkedin_params.
    repeat split; reflexivity.
Qed.

(** The proofs below rewrite with facts about these three; [simpl] is to
    leave them folded. *)
Arguments request_headers : simpl never.
Arguments raise_for_status : simpl never.
Arguments has_email : simpl never.

Lemma raise_for_status_ok (r : Response) :
  status_code r < 400 \/ 600 <= status_code r ->
  raise_for_status r = Return tt.
Proof.
  intros H. unfold raise_for_status.
  destruct (Z.leb_spec 400 (status_code r)), (Z.ltb_spec (status_code r) 500),
    (Z.leb_spec 500 (status_code r)), (Z.ltb_spec (status_code r) 600);
    simpl; try reflexivity; lia.
Qed.

Lemma raise_for_status_error (r : Response) :
  400 <= status_code r < 600 ->
  exists kind,
    raise_for_status r =
    Raise (Exn RequestsHTTPError
             (of_Z (status_code r) +:+ kind +:+ reason r +:+ " for url: " +:+ url r)).
Proof.
  intros H. unfold raise_for_status.
  destruct (Z.leb_spec 400 (status_code r)), (Z.ltb_spec (status_code r) 500),
    (Z.leb_spec 500 (status_code r)), (Z.ltb_spec (status_code r) 600);
    simpl; try lia; eexists; reflexivity.
Qed.

Lemma nonempty_is_truthy (p : gmap string json) (k : string) (v : json) :
  p !! k = Some v -> Py.truth (JObj p) = true.
Proof.
  intros H. simpl. destruct (size p) eqn:E; [|reflexivity].
  apply map_size_empty_iff in E. subst p. now rewrite lookup_empty in H.
Qed.

Lemma has_email_found (d : gmap string json) (v : json) :
  email_field d = Some v ->
  exists p,
    d !! "person" = Some (JObj p) /\ p !! "email" = Some v /\
    has_email (JObj d) = Return true.
Proof.
  unfold email_field. intros H.
  destruct (d !! "person") as [[| | | | |p]|] eqn:Hp; try discriminate.
  destruct (p !! "email") as [w|] eqn:He; [|discriminate].
  destruct (Py.truth w) eqn:Hw; [|discriminate].
  injection H as ->. exists p. split; [reflexivity|split; [exact He|]].
  unfold has_email, Py.contains_key, Py.getitem, obind.
  rewrite Hp. cbn [negb]. rewrite (nonempty_is_truthy p "email" v He).
  cbn [negb]. rewrite He. cbn [negb]. now rewrite Hw.
Qed.

Lemma has_email_missing (d : gmap string json) :
  person_is_record d = true ->
  email_field d = None ->
  has_email (JObj d) = Return false.
Proof.
  unfold person_is_record, email_field, has_email, Py.contains_key, Py.getitem, obind.
  intros Hr He.
  destruct (d !! "person") as [person|]; [|reflexivity]. cbn [negb].
  destruct (Py.truth person) eqn:Ht; [|reflexivity]. cbn [negb].
  destruct person as [| | | | |p]; try discriminate.
  destruct (p !! "email") as [w|]; [|reflexivity]. cbn [negb].
  destruct (Py.truth w); [discriminate|reflexivity].
Qed.

Lemma falsy_truth (v : json) : Py.falsy v -> Py.truth v = false.
Proof.
  intros [-> | [-> | [-> | [-> | [-> | ->]]]]]; reflexivity.
Qed.

Lemma nonempty_truthy (e : string) : e <> EmptyString -> truthy e = true.
Proof. destruct e; [congruence|reflexivity]. Qed.

(** A body without a usable e-mail, case by case. *)
Lemma lacks_email (d : gmap string json) :
  d !! "person" = None \/
  (exists v, d !! "person" = Some v /\ Py.falsy v) \/
  (exists p, d !! "person" = Some (JObj p) /\
             (p !! "email" = None \/
              exists v, p !! "email" = Some v /\ Py.falsy v)) ->
  person_is_record d = true /\ email_field d = None.
Proof.
  unfold person_is_record, email_field.
  intros [H|[(v & H & Hv)|(p & H & Hp)]]; rewrite H.
  - split; reflexivity.
  - pose proof (falsy_truth v Hv) as Ht.
    destruct Hv as [-> | [-> | [-> | [-> | [-> | ->]]]]]; split; reflexivity.
  - destruct Hp as [Hp|(v & Hp & Hv)]; rewrite Hp; [split; reflexivity|].
    now rewrite (falsy_truth v Hv).
Qed.

(** C4, as the code has it.  Once a key is configured and the service has
    answered: a response that is not an HTTP error and whose body is an
    object with a person record that carries a non-empty e-mail string
    yields [Email found: ] followed by that e-mail; a response that is not
    an HTTP error and whose body is an object in which the person entry is
    missing or false, or is a record whose e-mail entry is missing or false,
    yields the not-found sentinel; an HTTP error status (400-599) yields a
    string that embeds the status code, the reason and the body of the
    response. *)
Theorem C4_enrich_responses (ext : External) (params : gmap string string)
  (st : State) (k : string) (r : Response) :
  APOLLO_API_KEY (globals st) = Some k ->
  k <> EmptyString ->
  post ext api_endpoint params (request_headers k) = Responded r ->
  (forall d p e,
      status_code r < 400 \/ 600 <= status_code r ->
      json_ r = Return (JObj d) ->
      d !! "person" = Some (JObj p) ->
      p !! "email" = Some (JStr e) ->
      e <> EmptyString ->
      result (_enrich_person ext params st) = Return ("Email found: " +:+ e) /\
      contains e ("Email found: " +:+ e) = true) /\
  (forall d,
      status_code r < 400 \/ 600 <= status_code r ->
      json_ r = Return (JObj d) ->
      d !! "person" = None \/
      (exists v, d !! "person" = Some v /\ Py.falsy v) \/
      (exists p, d !! "person" = Some (JObj p) /\
                 (p !! "email" = None \/
                  exists v, p !! "email" = Some v /\ Py.falsy v)) ->
      result (_enrich_person ext params st) = Return NOT_FOUND) /\
  (400 <= status_code r < 600 ->
   exists detail,
     result (_enrich_person ext params st) =
       Return ("HTTP error occurred: " +:+ detail +:+ " - " +:+ text r) /\
     contains (of_Z (status_code r)) detail = true /\
     contains (reason r) detail = true).
Proof.
  intros Hkey Hk Hpost. apply nonempty_truthy in Hk.
  split; [|split].
  - intros d p e Hstatus Hjson Hp He Hne.
    assert (Hfield : email_field d = Some (JStr e)).
    { unfold email_field. rewrite Hp, He. simpl.
      now rewrite (nonempty_truthy e Hne). }
    destruct (has_email_found d _ Hfield) as (p' & Hp' & He' & Hhas).
    split; [|apply contains_end].
    unfold _enrich_person. run. rewrite Hkey. simpl. rewrite Hk. simpl.
    rewrite Hpost. unfold try_except. run.
    rewrite (raise_for_status_ok r Hstatus), Hjson, Hhas. simpl.
    rewrite Hp'. simpl. rewrite He'. reflexivity.
  - intros d Hstatus Hjson Hlacks.
    apply lacks_email in Hlacks as [Hrec Hfield].
    unfold _enrich_person. run. rewrite Hkey. simpl. rewrite Hk. simpl.
    rewrite Hpost. unfold try_except. run.
    rewrite (raise_for_status_ok r Hstatus), Hjson.
    rewrite (has_email_missing d Hrec Hfield). reflexivity.
  - intros Hstatus.
    destruct (raise_for_status_error r Hstatus) as [kind Hraise].
    eexists. split; [|split].
    + unfold _enrich_person. run. rewrite Hkey. simpl. rewrite Hk. simpl.
      rewrite Hpost. unfold try_except. run.
      rewrite Hraise. reflexivity.
    + apply contains_here.
    + apply contains_after, contains_after, contains_here.
Qed.

Lemma C4_enrich_responses_witness :
  result (_enrich_person Example.ext (linkedin_params "https://www.linkedin.com/in/ann")
            (Example.with_key "secret")) = Return "Email found: a@b.com" /\
  result (_enrich_person Example.without_email
            (linkedin_params "https://www.linkedin.com/in/ann")
            (Example.with_key "secret")) = Return NOT_FOUND /\
  exists detail,
    result (_enrich_person Example.failing
              (linkedin_params "https://www.linkedin.com/in/ann")
              (Example.with_key "secret")) =
      Return ("HTTP error occurred: " +:+ detail +:+ " - oops") /\
    contains "500" detail = true /\
    contains "Internal Server Error" detail = true.
Proof.
  assert (Hsecret : "secret" <> EmptyString) by discriminate.
  assert (Hmail : "a@b.com" <> EmptyString) by discriminate.
  split; [|split].
  - refine (proj1 (proj1 (C4_enrich_responses Example.ext
              (linkedin_params "https://www.linkedin.com/in/ann")
              (Example.with_key "secret") "secret" Example.person_found
              eq_refl Hsecret eq_refl)
              {[ "person" := JObj {[ "email" := JStr "a@b.com" ]} ]}
              {[ "email" := JStr "a@b.com" ]} "a@b.com" _ eq_refl eq_refl eq_refl Hmail)).
    left. reflexivity.
  - refine (proj1 (proj2 (C4_enrich_responses Example.without_email
              (linkedin_params "https://www.linkedin.com/in/ann")
              (Example.with_key "secret") "secret" Example.person_without_email
              eq_refl Hsecret eq_refl))
              {[ "person" := JObj {[ "name" := JStr "Ann" ]} ]} _ eq_refl _).
    + left. reflexivity.
    + right. right. exists {[ "name" := JStr "Ann" ]}. split; [reflexivity|].
      left. reflexivity.
  - refine (proj2 (proj2 (C4_enrich_responses Example.failing
              (linkedin_params "https://www.linkedin.com/in/ann")
              (Example.with_key "secret") "secret" Example.server_error
              eq_refl Hsecret eq_refl)) _).
    split; [discriminate | reflexivity].
Defined.

(** C4 as specified fails: a response with HTTP status 200 whose body is
    [null], or whose person entry is a text, has no person record with an
    e-mail, and the result is not the not-found sentinel but the report of
    an unexpected error. *)
Lemma C4_counterexample :
  result (_enrich_person Scenario.answers_null
            (linkedin_params "https://www.linkedin.com/in/ann")
            (Example.with_key "secret")) =
    Return "An unexpected error occurred: argument of type 'NoneType' is not iterable" /\
  result (_enrich_person Scenario.answers_text
            (linkedin_params "https://www.linkedin.com/in/ann")
            (Example.with_key "secret")) =
    Return "An unexpected error occurred: string indices must be integers, not 'str'" /\
  result (_enrich_person Scenario.answers_null
            (linkedin_params "https://www.linkedin.com/in/ann")
            (Example.with_key "secret")) <> Return NOT_FOUND /\
  result (_enrich_person Scenario.answers_text
            (linkedin_params "https://www.linkedin.com/in/ann")
            (Example.with_key "secret")) <> Return NOT_FOUND.
Proof. repeat split; discriminate. Qed.

(* ===================================================================== *)
(** * The key is read when the module is loaded *)
(* ===================================================================== *)

Lemma module_load_runs (ext : External) (st0 : State) :
  module_load ext st0 =
  (Return tt,
   {| files := files st0;
      environ := environ st0 ∪ dotenv ext;
      globals := {| APOLLO_API_KEY := (environ st0 ∪ dotenv ext) !! "APOLLO_API_KEY" |};
      trace := (trace st0 ++ [EvLoadDotenv]) ++ [EvGetenv "APOLLO_API_KEY"] |}).
Proof. reflexivity. Qed.

(** C10.  Loading the module reads the variable once, after the [.env]
    file has been merged into the environment, and keeps the value in
    [APOLLO_API_KEY].  Whatever the environment is changed to afterwards,
    both tools behave by that value: without it they raise the
    precondition error and send nothing; with it they send their request
    with that value as [x-api-key]. *)
Theorem C10_key_read_once (ext : External) (st0 : State)
  (env' : gmap string string) (first last company url : string) :
  let key := (environ st0 ∪ dotenv ext) !! "APOLLO_API_KEY" in
  let later := set_environ env' (final (module_load ext st0)) in
  let headers := request_headers (default EmptyString key) in
  emitted (module_load ext) st0 = [EvLoadDotenv; EvGetenv "APOLLO_API_KEY"] /\
  APOLLO_API_KEY (globals later) = key /\
  if Py.truth_opt key then
    headers !! "x-api-key" = key /\
    (exists out,
        find_email_by_name_and_company ext first last company later =
        (Return out,
         emit (EvHttpPost api_endpoint
                 (name_and_company_params first last company) headers) later)) /\
    (exists out,
        find_email_by_linkedin ext url later =
        (Return out,
         emit (EvHttpPost api_endpoint (linkedin_params url) headers) later))
  else
    find_email_by_name_and_company ext first last company later
      = (Raise KEY_NOT_SET, later) /\
    find_email_by_linkedin ext url later = (Raise KEY_NOT_SET, later).
Proof.
  intros key later headers.
  assert (Hkey : APOLLO_API_KEY (globals later) = key) by reflexivity.
  split; [|split; [exact Hkey|]].
  - apply emitted_app. rewrite module_load_runs. simpl. now rewrite <- app_assoc.
  - unfold find_email_by_name_and_company, find_email_by_linkedin.
    destruct (Py.truth_opt key) eqn:Ht.
    + split; [|split].
      * subst headers. destruct key as [k|]; [|discriminate]. reflexivity.
      * destruct (enrich_with_key ext (name_and_company_params first last company) later)
          as [out H]; [now rewrite Hkey|].
        exists out. rewrite H. now rewrite Hkey.
      * destruct (enrich_with_key ext (linkedin_params url) later) as [out H];
          [now rewrite Hkey|].
        exists out. rewrite H. now rewrite Hkey.
    + split; apply enrich_without_key; now rewrite Hkey.
Qed.

(* ===================================================================== *)
(** * The prompt generator *)
(* ===================================================================== *)

Module StripFacts.
Import PyStr Lines Strip.
Import HtmlFacts.

Ltac bool_tidy :=
  cbn; rewrite ?andb_false_r, ?orb_false_r, ?andb_false_l; cbn.

(** A byte that belongs to no white-space character, at the head. *)
Lemma all_space_head (c : ascii) (y : string) :
  space_byte c = false -> all_space (String c y) = false.
Proof.
  intros H. each_char c; try discriminate H; clear H;
    destruct y as [|d [|e s3]]; reflexivity.
Qed.

(** Nothing that contains such a byte is white space only. *)
Lemma all_space_with_byte (n : nat) :
  forall (x : string) (c : ascii) (y : string),
    (String.length x < n)%nat ->
    space_byte c = false ->
    all_space (x +:+ String c y) = false.
Proof.
  induction n as [|n IH]; intros x c y Hlen Hc; [lia|].
  destruct x as [|a x]; [now apply all_space_head|].
  change (String a x +:+ String c y) with (String a (x +:+ String c y)).
  cbn [all_space].
  destruct (space1 a); [apply IH; [simpl in Hlen; lia | exact Hc]|].
  destruct x as [|d x].
  - change (EmptyString +:+ String c y) with (String c y). cbv beta iota.
    assert (H2 : space2 a c = false).
    { each_char c; try discriminate Hc; unfold space2; bool_tidy; reflexivity. }
    rewrite H2. destruct y as [|e s3]; [reflexivity|].
    assert (H3 : space3 a c e = false).
    { each_char c; try discriminate Hc; unfold space3; bool_tidy; reflexivity. }
    now rewrite H3.
  - change (String d x +:+ String c y) with (String d (x +:+ String c y)).
    cbv beta iota.
    destruct (space2 a d); [apply IH; [simpl in Hlen; lia | exact Hc]|].
    destruct x as [|e x].
    + change (EmptyString +:+ String c y) with (String c y). cbv beta iota.
      assert (H3 : space3 a d c = false).
      { each_char c; try discriminate Hc; unfold space3; bool_tidy; reflexivity. }
      now rewrite H3.
    + change (String e x +:+ String c y) with (String e (x +:+ String c y)).
      cbv beta iota.
      destruct (space3 a d e); [apply IH; [simpl in Hlen; lia | exact Hc]|].
      reflexivity.
Qed.

(** [rstrip] keeps everything up to a byte of that kind. *)
Lemma rstrip_keeps (x : string) (c : ascii) (y : string) :
  space_byte c = false ->
  rstrip (x +:+ String c y) = x +:+ rstrip (String c y).
Proof.
  intros Hc. induction x as [|a x IH]; [reflexivity|].
  change (String a x +:+ String c y) with (String a (x +:+ String c y)).
  cbn [rstrip].
  change (String a (x +:+ String c y)) with (String a x +:+ String c y) at 1.
  rewrite (all_space_with_byte (S (String.length (String a x)))) by (lia || exact Hc).
  rewrite IH. reflexivity.
Qed.

End StripFacts.

Import PyStr Strip Prompt StripFacts.

Lemma lstrip_head (c : ascii) (y : string) :
  space_byte c = false -> lstrip (String c y) = String c y.
Proof.
  intros H. each_char c; try discriminate H; clear H;
    destruct y as [|d [|e s3]]; reflexivity.
Qed.

Lemma length_append (a b : string) :
  String.length (a +:+ b) = (String.length a + String.length b)%nat.
Proof.
  induction a as [|c a IH]; [reflexivity|].
  change (S (String.length (a +:+ b)) = S (String.length a + String.length b)).
  now rewrite IH.
Qed.

Lemma append_inj_r (a b t : string) : a +:+ t = b +:+ t -> a = b.
Proof.
  revert b. induction a as [|c a IH]; intros [|d b] H.
  - reflexivity.
  - apply (f_equal String.length) in H. rewrite !length_append in H.
    simpl in H. lia.
  - apply (f_equal String.length) in H. rewrite !length_append in H.
    simpl in H. lia.
  - change (String c (a +:+ t) = String d (b +:+ t)) in H.
    injection H as -> H. f_equal. now apply IH.
Qed.

(** [strip] takes the two line feeds of the template and nothing else. *)
Lemma generate_email_prompt_form (context : string) :
  generate_email_prompt context = PROMPT_HEAD +:+ context +:+ PROMPT_TAIL.
Proof.
  unfold generate_email_prompt, prompt_template, strip, PROMPT_TAIL.
  set (z := PROMPT_HEAD +:+ context +:+ PROMPT_STRUCTURE).
  replace (PROMPT_HEAD +:+ context +:+ (PROMPT_STRUCTURE +:+ PROMPT_LAST) +:+
           String LF EmptyString)
    with (z +:+ (PROMPT_LAST +:+ String LF EmptyString))
    by (subst z; now rewrite !append_assoc).
  replace (PROMPT_HEAD +:+ context +:+ PROMPT_STRUCTURE +:+ PROMPT_LAST)
    with (z +:+ PROMPT_LAST) by (subst z; now rewrite !append_assoc).
  change (lstrip (String LF ?x)) with (lstrip x).
  assert (Hz : z = String "Y" (String.substring 1 (String.length PROMPT_HEAD - 1)
                                 PROMPT_HEAD +:+ context +:+ PROMPT_STRUCTURE))
    by reflexivity.
  rewrite Hz at 1.
  change (String "Y" ?t +:+ ?r) with (String "Y" (t +:+ r)).
  rewrite lstrip_head by reflexivity.
  change (String "Y" (?t +:+ ?r)) with (String "Y" t +:+ r).
  rewrite <- Hz.
  change (PROMPT_LAST +:+ String LF EmptyString)
    with (String "D" (String.substring 1 (String.length PROMPT_LAST - 1) PROMPT_LAST
                      +:+ String LF EmptyString)).
  rewrite rstrip_keeps by reflexivity.
  reflexivity.
Qed.

(** X1.  For every context the prompt is the template with the context in
    its place, byte for byte: [strip] removes the line feed before and the
    one after the template and nothing else, whatever white space the
    context itself begins or ends with. *)
Theorem X1_prompt_embeds_context (context : string) :
  generate_email_prompt context = PROMPT_HEAD +:+ context +:+ PROMPT_TAIL /\
  contains context (generate_email_prompt context) = true /\
  String.length (generate_email_prompt context) = (String.length context + 687)%nat.
Proof.
  rewrite generate_email_prompt_form. split; [reflexivity|]. split.
  - apply contains_middle.
  - rewrite !length_append. change (String.length PROMPT_HEAD) with 117%nat.
    change (String.length PROMPT_TAIL) with 570%nat. lia.
Qed.

(** X2.  The context can be read back from the prompt: two contexts that
    give the same prompt are the same. *)
Theorem X2_prompt_injective (c1 c2 : string) :
  generate_email_prompt c1 = generate_email_prompt c2 -> c1 = c2.
Proof.
  intros H. rewrite !generate_email_prompt_form in H.
  apply append_inj_l in H. now apply append_inj_r in H.
Qed.

Lemma X2_prompt_injective_witness :
  "Ask Ann for the March report" = "Ask Ann for the March report".
Proof.
  apply (X2_prompt_injective "Ask Ann for the March report"
           "Ask Ann for the March report").
  reflexivity.
Defined.

(* ===================================================================== *)
(** * More about the HTML body *)
(* ===================================================================== *)

Lemma count_char_append (c : ascii) (a b : string) :
  count_char c (a +:+ b) = (count_char c a + count_char c b)%nat.
Proof.
  induction a as [|x a IH]; [reflexivity|].
  change (String x a +:+ b) with (String x (a +:+ b)).
  simpl. rewrite IH. lia.
Qed.

(** What one character contributes to the counts below. *)
Lemma markup_char_counts (c : ascii) :
  count_char "<" (markup_char c) = (if Ascii.eqb c LF then 1 else 0)%nat /\
  count_char ">" (markup_char c) = (if Ascii.eqb c LF then 1 else 0)%nat /\
  count_char DQUOTE (markup_char c) = 0%nat /\
  count_char SQUOTE (markup_char c) = 0%nat /\
  count_char LF (markup_char c) = 0%nat /\
  (1 <= String.length (markup_char c) <= 6)%nat.
Proof. each_char c; repeat split; cbn; lia. Qed.

(** X3.  In the formatted body the only angle brackets are those of the
    [<br>] markers, one pair per line feed of the plain body, and there is
    no quote character and no line feed left: nothing of the body can open
    or close a tag or an attribute. *)
Theorem X3_formatted_body_has_no_markup (body : string) :
  count_char "<" (html_formatted_body body) = count_char LF body /\
  count_char ">" (html_formatted_body body) = count_char LF body /\
  count_char DQUOTE (html_formatted_body body) = 0%nat /\
  count_char SQUOTE (html_formatted_body body) = 0%nat /\
  count_char LF (html_formatted_body body) = 0%nat.
Proof.
  induction body as [|c body (I1 & I2 & I3 & I4 & I5)]; [repeat split|].
  rewrite formatted_step, !count_char_append, I1, I2, I3, I4, I5.
  destruct (markup_char_counts c) as (H1 & H2 & H3 & H4 & H5 & _).
  rewrite H1, H2, H3, H4, H5. simpl.
  destruct (Ascii.eqb c LF); repeat split; lia.
Qed.

(** X4.  Escaping works piece by piece: the formatted body of a
    concatenation is the concatenation of the formatted bodies, and the
    same holds for [html.escape] alone.  No character of one piece changes
    how the next one is written. *)
Theorem X4_formatting_is_piecewise (a b : string) :
  escape (a +:+ b) = escape a +:+ escape b /\
  html_formatted_body (a +:+ b) = html_formatted_body a +:+ html_formatted_body b.
Proof.
  induction a as [|c a [IH1 IH2]]; [split; reflexivity|].
  change (String c a +:+ b) with (String c (a +:+ b)).
  rewrite !escape_step, !formatted_step, IH1, IH2, !append_assoc.
  split; reflexivity.
Qed.

(** X5.  Two bodies with the same HTML document are the same body: the
    escaping loses nothing. *)
Theorem X5_html_body_injective (a b : string) :
  html_body a = html_body b -> a = b.
Proof.
  intros H. apply (f_equal visible_text) in H.
  rewrite !visible_text_html_body in H. now apply append_inj_r in H.
Qed.

Lemma X5_html_body_injective_witness : "a < b" = "a < b".
Proof. apply (X5_html_body_injective "a < b" "a < b"). reflexivity. Defined.

(** X6.  A body without [&], [<], [>], quotes and line feeds goes into the
    document as it is. *)
Theorem X6_plain_text_unchanged (body : string) :
  all_chars (fun c => negb (is_special c)) body = true ->
  html_body body = "<html><body>" +:+ body +:+ "<br></body></html>".
Proof.
  intros H. unfold html_body. f_equal. f_equal.
  induction body as [|c body IH]; [reflexivity|].
  simpl in H. apply andb_true_iff in H as [Hc Hb].
  rewrite formatted_step, IH by exact Hb.
  revert Hc. each_char c; intros Hc; try discriminate Hc; reflexivity.
Qed.

Lemma X6_plain_text_unchanged_witness :
  html_body "See you at 10, Ann" = "<html><body>See you at 10, Ann<br></body></html>".
Proof. apply (X6_plain_text_unchanged "See you at 10, Ann"). reflexivity. Defined.

(** X7.  The document is never shorter than the body plus the thirty
    bytes of the template, and never longer than six times the body plus
    thirty: a character grows to at most six bytes ([&quot;], [&#x27;]). *)
Theorem X7_html_body_length (body : string) :
  (String.length body + 30 <= String.length (html_body body) <=
   6 * String.length body + 30)%nat.
Proof.
  assert (H : (String.length body <= String.length (html_formatted_body body)
               <= 6 * String.length body)%nat).
  { induction body as [|c body IH]; [simpl; lia|].
    rewrite formatted_step, length_append.
    destruct (markup_char_counts c) as (_ & _ & _ & _ & _ & Hl).
    change (String.length (String c body)) with (S (String.length body)). lia. }
  unfold html_body. rewrite !length_append.
  change (String.length "<html><body>") with 12%nat.
  change (String.length "<br></body></html>") with 18%nat. lia.
Qed.

(* ===================================================================== *)
(** * Header values with a line feed *)
(* ===================================================================== *)

Module LinesFacts.
Import PyStr Lines.

Ltac expose :=
  repeat change (String ?h ?t +:+ ?r) with (String h (t +:+ r));
  repeat change (EmptyString +:+ ?r) with r;
  cbv beta iota.

Lemma truthy_snoc (s : string) (c : ascii) : truthy (snoc s c) = true.
Proof. destruct s; reflexivity. Qed.

(** Some text gives at least one line. *)
Lemma splitlines_from_nonempty (n : nat) :
  forall (s cur : string),
    (String.length s < n)%nat ->
    truthy cur || truthy s = true ->
    (1 <= length (splitlines_from cur s))%nat.
Proof.
  induction n as [|n IH]; intros s cur Hlen Ht; [lia|].
  destruct s as [|c s1].
  - simpl in *. rewrite orb_false_r in Ht. rewrite Ht. simpl. lia.
  - cbn [splitlines_from].
    destruct (single_boundary c); [simpl; lia|].
    destruct (N.eqb (code c) 13).
    { destruct s1 as [|d s2]; [simpl; lia|].
      destruct (N.eqb (code d) 10); simpl; lia. }
    assert (Hrec : (1 <= length (splitlines_from (snoc cur c) s1))%nat).
    { apply IH; [simpl in Hlen; lia|]. now rewrite truthy_snoc. }
    destruct s1 as [|d s2]; [exact Hrec|].
    destruct (N.eqb (code c) 194 && N.eqb (code d) 133); [simpl; lia|].
    destruct s2 as [|e s3]; [exact Hrec|].
    destruct (N.eqb (code c) 226 && N.eqb (code d) 128 &&
              (N.eqb (code e) 168 || N.eqb (code e) 169)); [simpl; lia|].
    exact Hrec.
Qed.

(** A line feed with something after it gives at least two lines. *)
Lemma splitlines_from_line_feed (n : nat) :
  forall (a cur rest : string),
    (String.length a < n)%nat ->
    truthy rest = true ->
    (2 <= length (splitlines_from cur (a +:+ String LF rest)))%nat.
Proof.
  induction n as [|n IH]; intros a cur rest Hlen Hne; [lia|].
  assert (Hrest : forall cur', (1 <= length (splitlines_from cur' rest))%nat).
  { intros cur'. apply (splitlines_from_nonempty (S (String.length rest))).
    - lia.
    - rewrite Hne. apply orb_true_r. }
  destruct a as [|x a1]; expose.
  { cbn [splitlines_from]. change (single_boundary LF) with true. cbv iota.
    cbn [length]. apply le_n_S, Hrest. }
  simpl in Hlen.
  assert (IH1 : forall cur', (2 <= length (splitlines_from cur'
                                (a1 +:+ String LF rest)))%nat).
  { intros cur'. apply IH; [lia | exact Hne]. }
  cbn [splitlines_from].
  destruct (single_boundary x).
  { cbn [length]. apply le_S, IH1. }
  destruct (N.eqb (code x) 13).
  { destruct a1 as [|d a2]; expose.
    - change (N.eqb (code LF) 10) with true. cbv iota.
      cbn [length]. apply le_n_S, Hrest.
    - destruct (N.eqb (code d) 10).
      + cbn [length]. apply le_S, IH; [simpl in Hlen; lia | exact Hne].
      + cbn [length]. apply le_S. exact (IH1 EmptyString). }
  destruct a1 as [|d a2]; expose.
  { change (N.eqb (code LF) 133) with false. rewrite andb_false_r.
    destruct rest as [|e rest']; [discriminate Hne|].
    change (N.eqb (code LF) 128) with false.
    rewrite andb_false_r, andb_false_l.
    exact (IH1 (snoc cur x)). }
  destruct (N.eqb (code x) 194 && N.eqb (code d) 133).
  { cbn [length]. apply le_S, IH; [simpl in Hlen; lia | exact Hne]. }
  destruct a2 as [|e a3]; expose.
  { change (N.eqb (code LF) 168) with false.
    change (N.eqb (code LF) 169) with false.
    rewrite andb_false_r.
    exact (IH1 (snoc cur x)). }
  destruct (N.eqb (code x) 226 && N.eqb (code d) 128 &&
            (N.eqb (code e) 168 || N.eqb (code e) 169)).
  { cbn [length]. apply le_S, IH; [simpl in Hlen; lia | exact Hne]. }
  exact (IH1 (snoc cur x)).
Qed.

Lemma header_value_with_line_feed (a rest : string) :
  truthy rest = true ->
  Email.header_value_ok (a +:+ String LF rest) = false.
Proof.
  intros Hne. unfold Email.header_value_ok, splitlines.
  pose proof (splitlines_from_line_feed (S (String.length a)) a EmptyString rest) as H.
  apply Nat.leb_gt. specialize (H ltac:(lia) Hne). lia.
Qed.

End LinesFacts.

(* ===================================================================== *)
(** * What a run may touch *)
(* ===================================================================== *)

Module FrameFacts.
Import Server.

Section Closure.
Context (P : Event -> bool) (path : string).

Lemma framed_unchanged {A} (m : M A) (st : State) (o : Outcome A) :
  m st = (o, st) -> framed P path m st.
Proof.
  intros H. unfold framed, final. rewrite H. simpl.
  repeat split; try reflexivity. exists []. now rewrite app_nil_r.
Qed.

Lemma framed_ret {A} (a : A) (st : State) : framed P path (ret a) st.
Proof. now apply (framed_unchanged _ _ (Return a)). Qed.

Lemma framed_raise {A} (e : exn) (st : State) : framed P path (@raise A e) st.
Proof. now apply (framed_unchanged _ _ (Raise e)). Qed.

Lemma framed_lift {A} (o : Outcome A) (st : State) : framed P path (lift o) st.
Proof. now apply (framed_unchanged _ _ o). Qed.

Lemma framed_get_state (st : State) : framed P path get_state st.
Proof. now apply (framed_unchanged _ _ (Return st)). Qed.

Lemma framed_event (e : Event) (st : State) :
  P e = true -> framed P path (event e) st.
Proof.
  intros H. unfold framed, final. simpl. repeat split; try reflexivity.
  exists [e]. simpl. now rewrite H.
Qed.

Lemma framed_store (text : string) (st : State) :
  framed P path (modify (fun st => set_files (<[path := text]> (files st)) st)) st.
Proof.
  unfold framed, final. simpl. repeat split; try reflexivity.
  - exists []. now rewrite app_nil_r.
  - intros p Hp. now apply lookup_insert_ne.
Qed.

Lemma framed_bind {A B} (m : M A) (k : A -> M B) (st : State) :
  framed P path m st ->
  (forall a st1, m st = (Return a, st1) -> framed P path (k a) st1) ->
  framed P path (bind m k) st.
Proof.
  intros Hm Hk. unfold framed, final, bind in *.
  destruct (m st) as [[a|e] st1] eqn:E; simpl in *; [|exact Hm].
  destruct Hm as ((evs1 & Ht1 & Hp1) & He1 & Hg1 & Hf1).
  destruct (Hk a st1 eq_refl) as ((evs2 & Ht2 & Hp2) & He2 & Hg2 & Hf2).
  repeat split.
  - exists (evs1 ++ evs2). split.
    + now rewrite Ht2, Ht1, app_assoc.
    + rewrite forallb_app. now rewrite Hp1, Hp2.
  - now rewrite He2.
  - now rewrite Hg2.
  - intros p Hp. now rewrite Hf2, Hf1.
Qed.

Lemma framed_try {A} (body : M A) (clauses : list (exn_class * (exn -> M A)))
  (st : State) :
  framed P path body st ->
  (forall e st1, body st = (Raise e, st1) -> framed P path (dispatch e clauses) st1) ->
  framed P path (try_except body clauses) st.
Proof.
  intros Hm Hk. unfold framed, final, try_except in *.
  destruct (body st) as [[a|e] st1] eqn:E; simpl in *; [exact Hm|].
  destruct Hm as ((evs1 & Ht1 & Hp1) & He1 & Hg1 & Hf1).
  destruct (Hk e st1 eq_refl) as ((evs2 & Ht2 & Hp2) & He2 & Hg2 & Hf2).
  repeat split.
  - exists (evs1 ++ evs2). split.
    + now rewrite Ht2, Ht1, app_assoc.
    + rewrite forallb_app. now rewrite Hp1, Hp2.
  - now rewrite He2.
  - now rewrite Hg2.
  - intros p Hp. now rewrite Hf2, Hf1.
Qed.

End Closure.

Lemma framed_weaken (P Q : Event -> bool) (path : string) {A} (m : M A) (st : State) :
  (forall e, P e = true -> Q e = true) ->
  framed P path m st -> framed Q path m st.
Proof.
  intros HPQ ((evs & Ht & Hp) & He & Hg & Hf). repeat split; try assumption.
  exists evs. split; [exact Ht|].
  apply forallb_forall. intros e He'. apply HPQ.
  now apply (proj1 (forallb_forall P evs) Hp).
Qed.

Ltac framed_step :=
  first
    [ apply framed_ret | apply framed_raise | apply framed_lift
    | apply framed_get_state
    | apply framed_event; reflexivity
    | apply framed_store
    | apply framed_bind; [|intros ? ? _]
    | match goal with
      | |- framed _ _ (match ?x with _ => _ end) _ => destruct x
      end ].

Ltac framed_tac := repeat framed_step.

Lemma get_gmail_service_framed (ext : External) (st : State) :
  framed is_session_event (TOKEN_PATH ext) (get_gmail_service ext) st.
Proof.
  unfold get_gmail_service, login, acquire, from_authorized_user_file,
    from_client_secrets_file, read_file, path_exists, creds_refresh,
    flow_run_local_server, discovery_build, write_file.
  framed_tac.
Qed.

End FrameFacts.

(* ===================================================================== *)
(** * More about the session and [send_email] *)
(* ===================================================================== *)

Import FrameFacts LinesFacts.

(** X8.  [get_gmail_service] stays within its own business: the events it
    adds are file checks, reads and writes, the refresh, the consent flow
    and the construction of the service (it never sends mail, posts to the
    enrichment service or prints); it leaves the environment and the module
    globals alone; and the only file it can change is [token.json]. *)
Theorem X8_session_frame (ext : External) (st : State) :
  (exists evs,
      emitted (get_gmail_service ext) st = evs /\
      trace (final (get_gmail_service ext st)) = trace st ++ evs /\
      forallb is_session_event evs = true) /\
  environ (final (get_gmail_service ext st)) = environ st /\
  globals (final (get_gmail_service ext st)) = globals st /\
  (forall p, p <> TOKEN_PATH ext ->
             files (final (get_gmail_service ext st)) !! p = files st !! p).
Proof.
  destruct (get_gmail_service_framed ext st) as ((evs & Ht & Hp) & He & Hg & Hf).
  repeat split; try assumption.
  exists evs. repeat split; try assumption. now apply emitted_app.
Qed.

Lemma compose_refused (ext : External) (r s b : string) :
  header_value_ok r && header_value_ok s = false ->
  exists e, compose ext r s b = Raise e.
Proof.
  intros H. destruct (compose ext r s b) as [p|e] eqn:E; [|now exists e].
  apply compose_inv in E as (_ & _ & Hr & _ & _ & Hs & _). rewrite Hr, Hs in H. discriminate.
Qed.

(** When the session fails nothing else happens. *)
Lemma send_email_suite_no_session (ext : External) (r s b : string) (st st1 : State)
  (e : exn) :
  get_gmail_service ext st = (Raise e, st1) ->
  send_email_suite ext r s b st = (Raise e, st1).
Proof. intros H. unfold send_email_suite. unfold bind at 1. now rewrite H. Qed.

Lemma send_email_suite_no_payload (ext : External) (r s b : string) (st st1 : State)
  (svc : Service) (e : exn) :
  get_gmail_service ext st = (Return svc, st1) ->
  compose ext r s b = Raise e ->
  send_email_suite ext r s b st = (Raise e, st1).
Proof.
  intros H Hc. unfold send_email_suite. unfold bind at 1. rewrite H.
  unfold bind at 1, lift. now rewrite Hc.
Qed.

(** The shape of every run of [send_email]: the session's events, then
    either one printed line, or the submission of the composed payload
    followed by one printed line. *)
Lemma send_email_runs (ext : External) (r s b : string) (st : State) :
  exists evs line,
    emitted (get_gmail_service ext) st = evs /\
    forallb is_session_event evs = true /\
    (emitted (send_email ext r s b) st = evs ++ [EvPrint line] \/
     exists payload,
       compose ext r s b = Return payload /\
       emitted (send_email ext r s b) st =
         evs ++ [EvGmailSend "me" payload; EvPrint line]).
Proof.
  destruct (get_gmail_service_framed ext st) as ((evs & Ht & Hp) & _).
  pose proof (emitted_app _ _ _ Ht) as Hem.
  unfold final in Ht.
  destruct (get_gmail_service ext st) as [[svc|e] st1] eqn:Hs; simpl in Ht.
  - destruct (compose ext r s b) as [payload|e] eqn:Hc.
    + assert (Hrun : exists o line,
                 send_email ext r s b st =
                 (o, emit (EvPrint line) (emit (EvGmailSend "me" payload) st1))).
      { rewrite send_email_handles, (send_email_suite_submits _ _ _ _ _ _ _ _ Hs Hc).
        destruct (messages_send ext svc "me" payload) as [answer|e];
          [destruct (Py.getitem answer "id") as [id|e]|];
          try destruct (is_instance e GoogleHttpError); eauto. }
      destruct Hrun as (o & line & Hrun).
      exists evs, line. repeat split; try assumption. right.
      exists payload. split; [reflexivity|].
      apply emitted_app. unfold final. rewrite Hrun. simpl.
      rewrite Ht. now rewrite <- !app_assoc.
    + assert (Hrun : exists o line,
                 send_email ext r s b st = (o, emit (EvPrint line) st1)).
      { rewrite send_email_handles,
          (send_email_suite_no_payload _ _ _ _ _ _ _ _ Hs Hc).
        destruct (is_instance e GoogleHttpError); eauto. }
      destruct Hrun as (o & line & Hrun).
      exists evs, line. repeat split; try assumption. left.
      apply emitted_app. unfold final. rewrite Hrun. simpl.
      rewrite Ht. now rewrite <- !app_assoc.
  - assert (Hrun : exists o line,
               send_email ext r s b st = (o, emit (EvPrint line) st1)).
    { rewrite send_email_handles, (send_email_suite_no_session _ _ _ _ _ _ _ Hs).
      destruct (is_instance e GoogleHttpError); eauto. }
    destruct Hrun as (o & line & Hrun).
    exists evs, line. repeat split; try assumption. left.
    apply emitted_app. unfold final. rewrite Hrun. simpl.
    rewrite Ht. now rewrite <- !app_assoc.
Qed.

Lemma no_send_in_session (evs : list Event) :
  forallb is_session_event evs = true -> existsb is_send evs = false.
Proof.
  induction evs as [|e evs IH]; [reflexivity|].
  simpl. intros H. apply andb_true_iff in H as [He H].
  rewrite IH by exact H. destruct e; try discriminate He; reflexivity.
Qed.

Lemma session_has_no_send_or_print (evs : list Event) :
  forallb is_session_event evs = true ->
  List.filter is_send evs = [] /\ List.filter is_print evs = [] /\
  (forall u raw, ~ In (EvGmailSend u raw) evs).
Proof.
  induction evs as [|e evs IH]; [repeat split; auto|].
  simpl. intros H. apply andb_true_iff in H as [He H].
  destruct (IH H) as (I1 & I2 & I3).
  destruct e; try discriminate He; simpl; rewrite ?I1, ?I2;
    (split; [reflexivity|split; [reflexivity|]]);
    intros u raw [Hin|Hin]; try discriminate Hin; now apply (I3 u raw).
Qed.

(** X9.  In every world and for every input, one call of [send_email]
    submits at most one message, and what it submits is the payload the
    composer returns for the three arguments, for user id [me]; and it
    prints exactly one line, which is the last thing it does. *)
Theorem X9_send_email_events (ext : External) (r s b : string) (st : State) :
  let evs := emitted (send_email ext r s b) st in
  (length (List.filter is_send evs) <= 1)%nat /\
  length (List.filter is_print evs) = 1%nat /\
  (exists line, last evs = Some (EvPrint line)) /\
  (forall u raw, In (EvGmailSend u raw) evs ->
                 u = "me" /\ compose ext r s b = Return raw).
Proof.
  intros evs. subst evs.
  destruct (send_email_runs ext r s b st) as (evs & line & _ & Hp & Hrun).
  destruct (session_has_no_send_or_print evs Hp) as (Hs & Hpr & Hin).
  destruct Hrun as [Hrun | (payload & Hc & Hrun)]; rewrite Hrun;
    rewrite !List.filter_app, Hs, Hpr; simpl;
    (split; [lia|split; [reflexivity|split]]).
  - exists line. apply last_snoc.
  - intros u raw H. apply in_app_iff in H as [H|[H|[]]];
      [now apply Hin in H | discriminate H].
  - exists line. change [EvGmailSend "me" payload; EvPrint line]
      with ([EvGmailSend "me" payload] ++ [EvPrint line]).
    rewrite app_assoc. apply last_snoc.
  - intros u raw H. apply in_app_iff in H as [H|[H|[H|[]]]].
    + now apply Hin in H.
    + injection H as <- <-. auto.
    + discriminate H.
Qed.

(** X10.  No header injection: when the recipient or the subject has a
    line feed with anything after it, [send_email] submits nothing, in
    every world and state. *)
Theorem X10_no_header_injection (ext : External) (r s b : string) (st : State)
  (a rest : string) :
  truthy rest = true ->
  r = a +:+ String LF rest \/ s = a +:+ String LF rest ->
  existsb is_send (emitted (send_email ext r s b) st) = false /\
  exists e, compose ext r s b = Raise e.
Proof.
  intros Hne Hrs.
  assert (Hbad : header_value_ok r && header_value_ok s = false).
  { destruct Hrs as [-> | ->].
    - now rewrite header_value_with_line_feed.
    - rewrite (header_value_with_line_feed a rest Hne). apply andb_false_r. }
  destruct (compose_refused ext r s b Hbad) as [e He].
  split; [|now exists e].
  destruct (send_email_runs ext r s b st) as (evs & line & _ & Hp & [Hrun | Hrun]).
  - rewrite Hrun, existsb_app, (no_send_in_session evs Hp). reflexivity.
  - destruct Hrun as (payload & Hc & _). rewrite He in Hc. discriminate.
Qed.

Lemma X10_no_header_injection_witness :
  existsb is_send
    (emitted (send_email Scenario.usual "ann@example.com"
                ("Hi" +:+ String LF "Bcc: eve@example.com") "See you")
       Scenario.fresh_token) = false /\
  exists e,
    compose Scenario.usual "ann@example.com"
      ("Hi" +:+ String LF "Bcc: eve@example.com") "See you" = Raise e.
Proof.
  apply (X10_no_header_injection Scenario.usual "ann@example.com"
           ("Hi" +:+ String LF "Bcc: eve@example.com") "See you"
           Scenario.fresh_token "Hi" "Bcc: eve@example.com").
  - reflexivity.
  - right. reflexivity.
Defined.

(** X11.  The provider took the message but its answer has no [id]: the
    message is submitted all the same, and [send_email] reports an
    unexpected error whose text is the missing key. *)
Theorem X11_answer_without_id (ext : External) (r s b : string) (st st1 : State)
  (svc : Service) (payload : string) (d : gmap string json) :
  get_gmail_service ext st = (Return svc, st1) ->
  compose ext r s b = Return payload ->
  messages_send ext svc "me" payload = Return (JObj d) ->
  d !! "id" = None ->
  send_email ext r s b st =
  (Return "An unexpected error occurred: 'id'",
   emit (EvPrint "An unexpected error occurred: 'id'")
     (emit (EvGmailSend "me" payload) st1)).
Proof.
  intros Hs Hc Hm Hd.
  rewrite send_email_handles, (send_email_suite_submits _ _ _ _ _ _ _ _ Hs Hc), Hm.
  unfold Py.getitem. rewrite Hd. reflexivity.
Qed.

Lemma X11_answer_without_id_witness :
  result (send_email Scenario.without_id "ann@example.com" "Hi" "See you"
            Scenario.fresh_token)
  = Return "An unexpected error occurred: 'id'" /\
  existsb is_send
    (emitted (send_email Scenario.without_id "ann@example.com" "Hi" "See you")
       Scenario.fresh_token) = true.
Proof.
  assert (H := X11_answer_without_id Scenario.without_id "ann@example.com" "Hi"
                 "See you" Scenario.fresh_token).
  specialize (H _ _ _ _ eq_refl eq_refl eq_refl eq_refl).
  split.
  - unfold result. rewrite H. reflexivity.
  - reflexivity.
Defined.

(** X12.  On an installation with neither token nor client secret,
    [send_email] returns the unexpected-error string that names
    [credentials.json], for every recipient, subject and body; it has only
    checked for the two files and printed the message: no network event,
    nothing composed or submitted. *)
Theorem X12_send_email_without_credentials (ext : External) (r s b : string)
  (st : State) :
  files st !! TOKEN_PATH ext = None ->
  files st !! CREDENTIALS_PATH ext = None ->
  result (send_email ext r s b st) =
    Return ("An unexpected error occurred: " +:+ MISSING_SECRET) /\
  emitted (send_email ext r s b) st =
    [EvPathExists (TOKEN_PATH ext); EvPathExists (CREDENTIALS_PATH ext);
     EvPrint ("An unexpected error occurred: " +:+ MISSING_SECRET)].
Proof.
  intros Ht Hc.
  pose proof (get_gmail_service_no_files ext st Ht Hc) as Hs.
  assert (Hrun : send_email ext r s b st =
    (Return ("An unexpected error occurred: " +:+ MISSING_SECRET),
     emit (EvPrint ("An unexpected error occurred: " +:+ MISSING_SECRET))
       (emit (EvPathExists (CREDENTIALS_PATH ext))
          (emit (EvPathExists (TOKEN_PATH ext)) st)))).
  { rewrite send_email_handles, (send_email_suite_no_session _ _ _ _ _ _ _ Hs).
    reflexivity. }
  split.
  - unfold result. now rewrite Hrun.
  - apply emitted_app. unfold final. rewrite Hrun. simpl.
    now rewrite <- !app_assoc.
Qed.

Lemma X12_send_email_without_credentials_witness :
  result (send_email Example.ext "ann@example.com" "Hi" "See you" Example.blank) =
    Return ("An unexpected error occurred: " +:+ MISSING_SECRET) /\
  emitted (send_email Example.ext "ann@example.com" "Hi" "See you") Example.blank =
    [EvPathExists (TOKEN_PATH Example.ext);
     EvPathExists (CREDENTIALS_PATH Example.ext);
     EvPrint ("An unexpected error occurred: " +:+ MISSING_SECRET)].
Proof.
  apply (X12_send_email_without_credentials Example.ext "ann@example.com" "Hi"
           "See you" Example.blank); reflexivity.
Defined.

(* ===================================================================== *)
(** * The paths of [get_gmail_service] *)
(* ===================================================================== *)

Lemma get_gmail_service_valid (ext : External) (st : State)
  (text : string) (c : Credentials) :
  files st !! TOKEN_PATH ext = Some text ->
  parse_authorized_user ext text SCOPES = Return c ->
  valid c = true ->
  get_gmail_service ext st =
  (build ext "gmail" "v1" c,
   emit (EvBuild c) (emit (EvReadFile (TOKEN_PATH ext))
     (emit (EvPathExists (TOKEN_PATH ext)) st))).
Proof.
  intros Ht Hp Hv.
  unfold get_gmail_service, from_authorized_user_file, read_file,
    path_exists, discovery_build. run.
  rewrite Ht. run. rewrite Ht, Hp, Hv. reflexivity.
Qed.

(** X13.  A stored record that is valid is used as it is: the token file
    is read, the service is built, and nothing else happens (no refresh,
    no consent flow, and the token file is not written again). *)
Theorem X13_valid_token_is_reused (ext : External) (st : State)
  (text : string) (c : Credentials) :
  files st !! TOKEN_PATH ext = Some text ->
  parse_authorized_user ext text SCOPES = Return c ->
  valid c = true ->
  result (get_gmail_service ext st) = build ext "gmail" "v1" c /\
  emitted (get_gmail_service ext) st =
    [EvPathExists (TOKEN_PATH ext); EvReadFile (TOKEN_PATH ext); EvBuild c] /\
  files (final (get_gmail_service ext st)) = files st.
Proof.
  intros Ht Hp Hv.
  pose proof (get_gmail_service_valid ext st text c Ht Hp Hv) as Hrun.
  repeat split.
  - unfold result. now rewrite Hrun.
  - apply emitted_app. unfold final. rewrite Hrun. simpl.
    now rewrite <- !app_assoc.
  - unfold final. now rewrite Hrun.
Qed.

Lemma X13_valid_token_is_reused_witness :
  result (get_gmail_service Scenario.usual Scenario.fresh_token) =
    Return {| api := "gmail"; version := "v1"; credentials := Example.fresh_creds |} /\
  emitted (get_gmail_service Scenario.usual) Scenario.fresh_token =
    [EvPathExists "/srv/email_generator/token.json";
     EvReadFile "/srv/email_generator/token.json";
     EvBuild Example.fresh_creds] /\
  files (final (get_gmail_service Scenario.usual Scenario.fresh_token)) =
    files Scenario.fresh_token.
Proof.
  apply (X13_valid_token_is_reused Scenario.usual Scenario.fresh_token
           "ya29.new" Example.fresh_creds); reflexivity.
Defined.

Lemma get_gmail_service_first_consent (ext : External) (st : State)
  (secret : string) (flow : Flow) (c : Credentials) :
  files st !! TOKEN_PATH ext = None ->
  files st !! CREDENTIALS_PATH ext = Some secret ->
  parse_client_secrets ext secret SCOPES = Return flow ->
  run_local_server ext flow = Return c ->
  open_for_writing ext (TOKEN_PATH ext) = None ->
  get_gmail_service ext st =
  (build ext "gmail" "v1" c,
   emit (EvBuild c)
     (set_files (<[TOKEN_PATH ext := to_json ext c]> (files st))
        (emit (EvWriteFile (TOKEN_PATH ext) (to_json ext c))
           (emit (EvLocalServer flow)
              (emit (EvReadFile (CREDENTIALS_PATH ext))
                 (emit (EvPathExists (CREDENTIALS_PATH ext))
                    (emit (EvPathExists (TOKEN_PATH ext)) st))))))).
Proof.
  intros Ht Hc Hp Hr Hw.
  unfold get_gmail_service, login, acquire, from_client_secrets_file, read_file,
    path_exists, flow_run_local_server, write_file, discovery_build. run.
  rewrite Ht. run. rewrite Hc. run. rewrite Hc, Hp. run. rewrite Hr, Hw.
  reflexivity.
Qed.

(** X14.  First run: without a token file and with a client secret whose
    consent flow succeeds, the secret is read, the local server is run, the
    new record is written to [token.json] and the service is built from
    it; afterwards the token file holds that record. *)
Theorem X14_first_consent_stores_token (ext : External) (st : State)
  (secret : string) (flow : Flow) (c : Credentials) :
  files st !! TOKEN_PATH ext = None ->
  files st !! CREDENTIALS_PATH ext = Some secret ->
  parse_client_secrets ext secret SCOPES = Return flow ->
  run_local_server ext flow = Return c ->
  open_for_writing ext (TOKEN_PATH ext) = None ->
  result (get_gmail_service ext st) = build ext "gmail" "v1" c /\
  emitted (get_gmail_service ext) st =
    [EvPathExists (TOKEN_PATH ext); EvPathExists (CREDENTIALS_PATH ext);
     EvReadFile (CREDENTIALS_PATH ext); EvLocalServer flow;
     EvWriteFile (TOKEN_PATH ext) (to_json ext c); EvBuild c] /\
  files (final (get_gmail_service ext st)) !! TOKEN_PATH ext = Some (to_json ext c) /\
  files (final (get_gmail_service ext st)) !! CREDENTIALS_PATH ext = Some secret.
Proof.
  intros Ht Hc Hp Hr Hw.
  pose proof (get_gmail_service_first_consent ext st secret flow c Ht Hc Hp Hr Hw)
    as Hrun.
  repeat split.
  - unfold result. now rewrite Hrun.
  - apply emitted_app. unfold final. rewrite Hrun. simpl.
    now rewrite <- !app_assoc.
  - unfold final. rewrite Hrun. simpl. apply lookup_insert_eq.
  - unfold final. rewrite Hrun. simpl.
    rewrite lookup_insert_ne by apply paths_differ. exact Hc.
Qed.

Lemma X14_first_consent_stores_token_witness :
  result (get_gmail_service Scenario.usual Scenario.first_run) =
    Return {| api := "gmail"; version := "v1"; credentials := Example.fresh_creds |} /\
  emitted (get_gmail_service Scenario.usual) Scenario.first_run =
    [EvPathExists "/srv/email_generator/token.json";
     EvPathExists "/srv/email_generator/credentials.json";
     EvReadFile "/srv/email_generator/credentials.json";
     EvLocalServer {| client_config := "{installed}";
                      flow_scopes := ["https://mail.google.com/"] |};
     EvWriteFile "/srv/email_generator/token.json" "ya29.new";
     EvBuild Example.fresh_creds] /\
  files (final (get_gmail_service Scenario.usual Scenario.first_run))
    !! "/srv/email_generator/token.json" = Some "ya29.new" /\
  files (final (get_gmail_service Scenario.usual Scenario.first_run))
    !! "/srv/email_generator/credentials.json" = Some "{installed}".
Proof.
  apply (X14_first_consent_stores_token Scenario.usual Scenario.first_run
           "{installed}"
           {| client_config := "{installed}";
              flow_scopes := ["https://mail.google.com/"] |}
           Example.fresh_creds); reflexivity.
Defined.

Lemma get_gmail_service_refresh_fails (ext : External) (st : State)
  (text : string) (c : Credentials) (e : exn) :
  files st !! TOKEN_PATH ext = Some text ->
  parse_authorized_user ext text SCOPES = Return c ->
  expired c = true ->
  Py.truth_opt (refresh_token c) = true ->
  refresh ext c = Raise e ->
  get_gmail_service ext st =
  (Raise e,
   emit (EvRefresh c) (emit (EvReadFile (TOKEN_PATH ext))
     (emit (EvPathExists (TOKEN_PATH ext)) st))).
Proof.
  intros Ht Hp He Hr Hf.
  unfold get_gmail_service, login, from_authorized_user_file, read_file,
    path_exists, creds_refresh, write_file, discovery_build. run.
  rewrite Ht. run. rewrite Ht, Hp.
  unfold valid. rewrite He. destruct (token c); run; now rewrite Hr, Hf.
Qed.

(** X15.  A refresh that fails is final: the exception of the refresh
    leaves [get_gmail_service]; the consent flow is not tried instead, the
    token file is not rewritten and no service is built. *)
Theorem X15_failed_refresh_is_final (ext : External) (st : State)
  (text : string) (c : Credentials) (e : exn) :
  files st !! TOKEN_PATH ext = Some text ->
  parse_authorized_user ext text SCOPES = Return c ->
  expired c = true ->
  Py.truth_opt (refresh_token c) = true ->
  refresh ext c = Raise e ->
  result (get_gmail_service ext st) = Raise e /\
  emitted (get_gmail_service ext) st =
    [EvPathExists (TOKEN_PATH ext); EvReadFile (TOKEN_PATH ext); EvRefresh c] /\
  files (final (get_gmail_service ext st)) = files st.
Proof.
  intros Ht Hp He Hr Hf.
  pose proof (get_gmail_service_refresh_fails ext st text c e Ht Hp He Hr Hf) as Hrun.
  repeat split.
  - unfold result. now rewrite Hrun.
  - apply emitted_app. unfold final. rewrite Hrun. simpl.
    now rewrite <- !app_assoc.
  - unfold final. now rewrite Hrun.
Qed.

Lemma X15_failed_refresh_is_final_witness :
  result (get_gmail_service Scenario.revoked Scenario.old_token) =
    Raise (Exn Exception_ "invalid_grant: Token has been expired or revoked.") /\
  emitted (get_gmail_service Scenario.revoked) Scenario.old_token =
    [EvPathExists "/srv/email_generator/token.json";
     EvReadFile "/srv/email_generator/token.json";
     EvRefresh Example.stored_creds] /\
  files (final (get_gmail_service Scenario.revoked Scenario.old_token)) =
    files Scenario.old_token.
Proof.
  apply (X15_failed_refresh_is_final Scenario.revoked Scenario.old_token
           "ya29.old" Example.stored_creds); reflexivity.
Defined.

(** A record that cannot be refreshed is handled like no record. *)
Lemma login_unrefreshable (ext : External) (c : Credentials) :
  expired c && Py.truth_opt (refresh_token c) = false ->
  login ext (Some c) = login ext None.
Proof. intros H. unfold login. now rewrite H. Qed.

Lemma get_gmail_service_unrefreshable (ext : External) (st : State)
  (text : string) (c : Credentials) :
  files st !! TOKEN_PATH ext = Some text ->
  parse_authorized_user ext text SCOPES = Return c ->
  valid c = false ->
  expired c && Py.truth_opt (refresh_token c) = false ->
  get_gmail_service ext st =
  bind (login ext None) (discovery_build ext "gmail" "v1")
    (emit (EvReadFile (TOKEN_PATH ext)) (emit (EvPathExists (TOKEN_PATH ext)) st)).
Proof.
  intros Ht Hp Hv Hr.
  unfold get_gmail_service, from_authorized_user_file, read_file, path_exists.
  run. rewrite Ht. run. rewrite Ht, Hp, Hv.
  now rewrite (login_unrefreshable ext c Hr).
Qed.

(** X16.  A stored record that is neither valid nor refreshable (not
    expired, or without a refresh token) is never refreshed: the run goes on
    as if there were no token, with the consent flow; with no client secret
    either it ends in the missing-client-secret error. *)
Theorem X16_unrefreshable_record (ext : External) (st : State)
  (text : string) (c : Credentials) :
  files st !! TOKEN_PATH ext = Some text ->
  parse_authorized_user ext text SCOPES = Return c ->
  valid c = false ->
  expired c && Py.truth_opt (refresh_token c) = false ->
  existsb is_refresh (emitted (get_gmail_service ext) st) = false /\
  (files st !! CREDENTIALS_PATH ext = None ->
   result (get_gmail_service ext st) = Raise (Exn FileNotFoundError MISSING_SECRET) /\
   emitted (get_gmail_service ext) st =
     [EvPathExists (TOKEN_PATH ext); EvReadFile (TOKEN_PATH ext);
      EvPathExists (CREDENTIALS_PATH ext)]).
Proof.
  intros Ht Hp Hv Hr.
  pose proof (get_gmail_service_unrefreshable ext st text c Ht Hp Hv Hr) as Hrun.
  set (st2 := emit (EvReadFile (TOKEN_PATH ext))
                (emit (EvPathExists (TOKEN_PATH ext)) st)) in *.
  split.
  - assert (Hf : framed (fun e => negb (is_refresh e)) (TOKEN_PATH ext)
                   (bind (login ext None) (discovery_build ext "gmail" "v1")) st2).
    { unfold login, acquire, from_client_secrets_file, read_file, path_exists,
        flow_run_local_server, discovery_build, write_file.
      framed_tac. }
    destruct Hf as ((evs & Htr & Hevs) & _).
    assert (Hem : emitted (get_gmail_service ext) st =
                  [EvPathExists (TOKEN_PATH ext); EvReadFile (TOKEN_PATH ext)] ++ evs).
    { apply emitted_app. rewrite Hrun, Htr. subst st2. simpl.
      now rewrite <- !app_assoc. }
    rewrite Hem, existsb_app. simpl.
    clear -Hevs. induction evs as [|e evs IH]; [reflexivity|].
    simpl in *. apply andb_true_iff in Hevs as [He Hevs].
    rewrite IH by exact Hevs. now destruct (is_refresh e).
  - intros Hc.
    assert (Hall : get_gmail_service ext st =
                   (Raise (Exn FileNotFoundError MISSING_SECRET),
                    emit (EvPathExists (CREDENTIALS_PATH ext)) st2)).
    { rewrite Hrun. unfold login, acquire, path_exists. run.
      assert (Hc2 : files st !! CREDENTIALS_PATH ext = None) by exact Hc.
      rewrite Hc2. reflexivity. }
    split.
    + unfold result. now rewrite Hall.
    + apply emitted_app. unfold final. rewrite Hall. subst st2. simpl.
      now rewrite <- !app_assoc.
Qed.

Lemma X16_unrefreshable_record_witness :
  existsb is_refresh
    (emitted (get_gmail_service Scenario.no_refresh_token) Scenario.old_token) = false /\
  result (get_gmail_service Scenario.no_refresh_token Scenario.old_token) =
    Raise (Exn FileNotFoundError MISSING_SECRET).
Proof.
  destruct (X16_unrefreshable_record Scenario.no_refresh_token Scenario.old_token
              "ya29.old"
              {| token := Some "ya29.old"; refresh_token := None;
                 expired := true; scopes := [] |}
              eq_refl eq_refl eq_refl eq_refl) as [H1 H2].
  split; [exact H1|]. apply H2. reflexivity.
Defined.

(** X17.  What a refresh stores is what the next call uses: after a call
    that refreshed the record and wrote it, a second call whose library
    reads the stored text back as the refreshed, valid record only reads
    the token and builds the service (no second refresh, no consent flow,
    no write). *)
Theorem X17_refreshed_token_is_reused (ext : External) (st : State)
  (text : string) (c c' : Credentials) :
  files st !! TOKEN_PATH ext = Some text ->
  parse_authorized_user ext text SCOPES = Return c ->
  expired c = true ->
  Py.truth_opt (refresh_token c) = true ->
  refresh ext c = Return c' ->
  open_for_writing ext (TOKEN_PATH ext) = None ->
  parse_authorized_user ext (to_json ext c') SCOPES = Return c' ->
  valid c' = true ->
  let st1 := final (get_gmail_service ext st) in
  files st1 !! TOKEN_PATH ext = Some (to_json ext c') /\
  result (get_gmail_service ext st1) = build ext "gmail" "v1" c' /\
  emitted (get_gmail_service ext) st1 =
    [EvPathExists (TOKEN_PATH ext); EvReadFile (TOKEN_PATH ext); EvBuild c'] /\
  files (final (get_gmail_service ext st1)) = files st1.
Proof.
  intros Ht Hp He Hr Hf Hw Hp' Hv st1.
  assert (Hstored : files st1 !! TOKEN_PATH ext = Some (to_json ext c')).
  { subst st1. unfold final.
    rewrite (get_gmail_service_refresh ext st text c c' Ht Hp He Hr Hf), Hw.
    simpl. apply lookup_insert_eq. }
  split; [exact Hstored|].
  pose proof (get_gmail_service_valid ext st1 _ c' Hstored Hp' Hv) as Hrun.
  repeat split.
  - unfold result. now rewrite Hrun.
  - apply emitted_app. unfold final. rewrite Hrun. simpl.
    now rewrite <- !app_assoc.
  - unfold final. now rewrite Hrun.
Qed.

Lemma X17_refreshed_token_is_reused_witness :
  files (final (get_gmail_service Scenario.usual Scenario.old_token))
    !! "/srv/email_generator/token.json" = Some "ya29.new" /\
  emitted (get_gmail_service Scenario.usual)
    (final (get_gmail_service Scenario.usual Scenario.old_token)) =
    [EvPathExists "/srv/email_generator/token.json";
     EvReadFile "/srv/email_generator/token.json";
     EvBuild Example.fresh_creds].
Proof.
  destruct (X17_refreshed_token_is_reused Scenario.usual Scenario.old_token
              "ya29.old" Example.stored_creds Example.fresh_creds
              eq_refl eq_refl eq_refl eq_refl eq_refl eq_refl eq_refl eq_refl)
    as (H1 & _ & H3 & _).
  split; [exact H1 | exact H3].
Defined.

(* ===================================================================== *)
(** * The payload *)
(* ===================================================================== *)

Module PayloadFacts.
Import Base64 Base64Facts.

Lemma sextet_char_is_urlsafe (n : Z) :
  urlsafe_char (urlsafe_of_std (char_of_sextet n)) = true.
Proof.
  unfold char_of_sextet. generalize (Z.to_nat n). intros k.
  do 64 (destruct k as [|k]; [reflexivity|]). reflexivity.
Qed.

Lemma encode_shape (k : nat) :
  forall data : list byte, (length data < k)%nat ->
  all_chars urlsafe_char (urlsafe_b64encode data) = true /\
  String.length (urlsafe_b64encode data) = (4 * ((length data + 2) / 3))%nat.
Proof.
  unfold urlsafe_b64encode.
  induction k as [|k IH]; intros data Hlen; [lia|].
  destruct data as [|a [|b [|c rest]]].
  - split; reflexivity.
  - cbn [b64encode translate all_chars String.length].
    rewrite !sextet_char_is_urlsafe. split; reflexivity.
  - cbn [b64encode translate all_chars String.length].
    rewrite !sextet_char_is_urlsafe. split; reflexivity.
  - cbn [b64encode translate all_chars String.length].
    rewrite !sextet_char_is_urlsafe.
    destruct (IH rest) as [H1 H2]; [simpl in Hlen; lia|].
    rewrite H1, H2. split; [reflexivity|].
    cbn [length].
    replace (S (S (S (length rest))) + 2)%nat with (length rest + 2 + 1 * 3)%nat by lia.
    rewrite Nat.div_add by lia. lia.
Qed.

End PayloadFacts.

(** X18.  Every payload the composer returns is made of the characters
    [A-Z], [a-z], [0-9], [-], [_] and [=] only (never [+] or [/]), and its
    length is four characters for every three bytes of the serialised
    message, rounded up. *)
Theorem X18_payload_is_urlsafe (ext : External) (r s b payload : string) :
  compose ext r s b = Return payload ->
  all_chars urlsafe_char payload = true /\
  exists raw,
    as_bytes ext (composed r s b) = Return raw /\
    String.length payload = (4 * ((length raw + 2) / 3))%nat.
Proof.
  intros H. apply compose_inv in H as ((raw & Hraw & ->) & _).
  destruct (PayloadFacts.encode_shape (S (length raw)) raw) as [H1 H2]; [lia|].
  split; [exact H1|]. now exists raw.
Qed.

Lemma X18_payload_is_urlsafe_witness :
  all_chars urlsafe_char
    "Q29udGVudC1UeXBlOiB0ZXh0L2h0bWw7IGNoYXJzZXQ9InV0Zi04IgpDb250ZW50LVRyYW5zZmVyLUVuY29kaW5nOiA3Yml0Ck1JTUUtVmVyc2lvbjogMS4wClRvOiBhbm5AZXhhbXBsZS5jb20KRnJvbTogbWUKU3ViamVjdDogSGk_Cgo8aHRtbD48Ym9keT5hJmd0O2I8YnI-PC9ib2R5PjwvaHRtbD4K" = true /\
  exists raw,
    as_bytes Example.ext (composed "ann@example.com" "Hi?" "a>b") = Return raw /\
    String.length
      "Q29udGVudC1UeXBlOiB0ZXh0L2h0bWw7IGNoYXJzZXQ9InV0Zi04IgpDb250ZW50LVRyYW5zZmVyLUVuY29kaW5nOiA3Yml0Ck1JTUUtVmVyc2lvbjogMS4wClRvOiBhbm5AZXhhbXBsZS5jb20KRnJvbTogbWUKU3ViamVjdDogSGk_Cgo8aHRtbD48Ym9keT5hJmd0O2I8YnI-PC9ib2R5PjwvaHRtbD4K" =
      (4 * ((length raw + 2) / 3))%nat.
Proof.
  apply (X18_payload_is_urlsafe Example.ext "ann@example.com" "Hi?" "a>b").
  reflexivity.
Defined.

(** X19.  The payload determines the serialised message: two calls of the
    composer that return the same payload serialised the same bytes. *)
Theorem X19_payload_determines_message (ext : External)
  (r1 s1 b1 r2 s2 b2 payload : string) :
  compose ext r1 s1 b1 = Return payload ->
  compose ext r2 s2 b2 = Return payload ->
  as_bytes ext (composed r1 s1 b1) = as_bytes ext (composed r2 s2 b2).
Proof.
  intros H1 H2.
  apply compose_inv in H1 as ((raw1 & Hraw1 & E1) & _).
  apply compose_inv in H2 as ((raw2 & Hraw2 & E2) & _).
  rewrite Hraw1, Hraw2. f_equal.
  rewrite E1 in E2.
  apply (f_equal Base64.urlsafe_b64decode) in E2.
  rewrite !urlsafe_b64decode_encode in E2. now injection E2.
Qed.

Lemma X19_payload_determines_message_witness :
  as_bytes Example.ext (composed "ann@example.com" "Hi" "See you") =
  as_bytes Example.ext (composed "ann@example.com" "Hi" "See you").
Proof.
  apply (X19_payload_determines_message Example.ext
           "ann@example.com" "Hi" "See you" "ann@example.com" "Hi" "See you"
           (Base64.urlsafe_b64encode
              (Example.message_as_bytes (composed "ann@example.com" "Hi" "See you"))));
    reflexivity.
Defined.

(* ===================================================================== *)
(** * More about the enrichment client *)
(* ===================================================================== *)

(** X20.  When the request itself fails (connection error, timeout), the
    tool returns [Request error occurred: ] with the text of the error; when
    [requests.post] fails in another way it returns [An unexpected error
    occurred: ] with the text.  Neither case raises. *)
Theorem X20_request_failures (ext : External) (params : gmap string string)
  (st : State) (k msg : string) :
  APOLLO_API_KEY (globals st) = Some k ->
  truthy k = true ->
  (post ext api_endpoint params (request_headers k) = RequestFailed msg ->
   result (_enrich_person ext params st) =
     Return ("Request error occurred: " +:+ msg)) /\
  (post ext api_endpoint params (request_headers k) = PostCrashed msg ->
   result (_enrich_person ext params st) =
     Return ("An unexpected error occurred: " +:+ msg)).
Proof.
  intros Hk Ht. split; intros Hpost;
    unfold _enrich_person; run; rewrite Hk; simpl; rewrite Ht; simpl;
    rewrite Hpost; reflexivity.
Qed.

Lemma X20_request_failures_witness :
  result (_enrich_person Scenario.unreachable (linkedin_params "https://www.linkedin.com/in/ann")
            (Example.with_key "secret")) =
  Return "Request error occurred: HTTPSConnectionPool(host='api.apollo.io', port=443): Max retries exceeded".
Proof.
  refine (proj1 (X20_request_failures Scenario.unreachable
            (linkedin_params "https://www.linkedin.com/in/ann")
            (Example.with_key "secret") "secret" _ eq_refl eq_refl) _).
  reflexivity.
Defined.

(** X21.  A response that is not an HTTP error but whose body is not the
    expected object never counts as found or not found: a body that cannot
    be parsed gives the text of the parser's exception after [Request error
    occurred: ] or [An unexpected error occurred: ] according to its class,
    and a body that is [null], a boolean or a number gives [An unexpected
    error occurred: ] with the text of the [TypeError]. *)
Theorem X21_malformed_body (ext : External) (params : gmap string string)
  (st : State) (k : string) (r : Response) :
  APOLLO_API_KEY (globals st) = Some k ->
  truthy k = true ->
  post ext api_endpoint params (request_headers k) = Responded r ->
  status_code r < 400 \/ 600 <= status_code r ->
  (forall e,
      json_ r = Raise e ->
      result (_enrich_person ext params st) =
        Return ((if is_instance e RequestsHTTPError
                 then "HTTP error occurred: " +:+ exn_str e +:+ " - " +:+ text r
                 else if is_instance e RequestException
                      then "Request error occurred: " +:+ exn_str e
                      else "An unexpected error occurred: " +:+ exn_str e))) /\
  (forall data,
      json_ r = Return data ->
      match data with
      | JNull | JBool _ | JNum _ => True
      | _ => False
      end ->
      exists msg,
        Py.contains_key "person" data = Raise (Exn TypeError msg) /\
        result (_enrich_person ext params st) =
          Return ("An unexpected error occurred: " +:+ msg)).
Proof.
  intros Hk Ht Hpost Hstatus. split.
  - intros e Hj.
    unfold _enrich_person. run. rewrite Hk. simpl. rewrite Ht. simpl.
    rewrite Hpost. unfold try_except. run.
    rewrite (raise_for_status_ok r Hstatus), Hj.
    destruct e as [[] msg]; reflexivity.
  - intros data Hj Hshape.
    destruct data as [|bb|n|x|l|d]; try contradiction;
      eexists; (split; [reflexivity|]);
      unfold _enrich_person; run; rewrite Hk; simpl; rewrite Ht; simpl;
      rewrite Hpost; unfold try_except; run;
      rewrite (raise_for_status_ok r Hstatus), Hj; reflexivity.
Qed.

Lemma X21_malformed_body_witness :
  exists msg,
    Py.contains_key "person" JNull = Raise (Exn TypeError msg) /\
    result (_enrich_person Scenario.answers_null
              (linkedin_params "https://www.linkedin.com/in/ann")
              (Example.with_key "secret")) =
      Return ("An unexpected error occurred: " +:+ msg).
Proof.
  refine (proj2 (X21_malformed_body Scenario.answers_null
            (linkedin_params "https://www.linkedin.com/in/ann")
            (Example.with_key "secret") "secret" _ eq_refl eq_refl eq_refl _)
            JNull eq_refl I).
  left. reflexivity.
Defined.

Lemma raise_for_status_returns (r : Response) :
  raise_for_status r = Return tt ->
  status_code r < 400 \/ 600 <= status_code r.
Proof.
  unfold raise_for_status.
  destruct (Z.leb_spec 400 (status_code r)), (Z.ltb_spec (status_code r) 500),
    (Z.leb_spec 500 (status_code r)), (Z.ltb_spec (status_code r) 600);
    simpl; intros Hret; try discriminate Hret; lia.
Qed.

Lemma has_email_true (data : json) :
  has_email data = Return true ->
  exists person email,
    Py.getitem data "person" = Return person /\
    Py.getitem person "email" = Return email /\
    Py.truth email = true.
Proof.
  unfold has_email, obind. intros H.
  destruct (Py.contains_key "person" data) as [[]|]; try discriminate H.
  cbn [negb] in H.
  destruct (Py.getitem data "person") as [person|] eqn:Hp; [|discriminate H].
  destruct (Py.truth person); [|discriminate H]. cbn [negb] in H.
  destruct (Py.contains_key "email" person) as [[]|]; try discriminate H.
  cbn [negb] in H.
  destruct (Py.getitem person "email") as [email|] eqn:He; [|discriminate H].
  injection H as Htruth. exists person, email. auto.
Qed.

(** X22.  The tool says [Email found: ] only when the service gave an
    e-mail: whenever the returned string starts with these words, a key was
    configured, the response was not an HTTP error, its body has a person
    whose [email] entry is truthy, and the string is the words followed by
    that entry.  No failure string and no sentinel starts with them. *)
Theorem X22_found_only_if_given (ext : External) (params : gmap string string)
  (st : State) (out : string) :
  result (_enrich_person ext params st) = Return out ->
  starts_with "Email found: " out = true ->
  exists k r data person email,
    APOLLO_API_KEY (globals st) = Some k /\
    post ext api_endpoint params (request_headers k) = Responded r /\
    (status_code r < 400 \/ 600 <= status_code r) /\
    json_ r = Return data /\
    Py.getitem data "person" = Return person /\
    Py.getitem person "email" = Return email /\
    Py.truth email = true /\
    out = "Email found: " +:+ str ext email.
Proof.
  intros Hout Hstart.
  unfold _enrich_person in Hout. run.
  destruct (APOLLO_API_KEY (globals st)) as [k|] eqn:Hk; [|discriminate Hout].
  simpl in Hout. destruct (truthy k) eqn:Ht; [|discriminate Hout].
  simpl in Hout. unfold try_except in Hout. run.
  destruct (post ext api_endpoint params (request_headers k)) as [r|msg|msg] eqn:Hpost.
  2,3: simpl in Hout; injection Hout as <-; vm_compute in Hstart; discriminate Hstart.
  assert (Hcatch : forall e o st',
             dispatch e
               [ (RequestsHTTPError, fun http_err : exn =>
                    ret ("HTTP error occurred: " +:+ exn_str http_err +:+ " - " +:+ text r));
                 (RequestException, fun req_err : exn =>
                    ret ("Request error occurred: " +:+ exn_str req_err));
                 (Exception_, fun e : exn =>
                    ret ("An unexpected error occurred: " +:+ exn_str e)) ] st'
             = (Return o, st') ->
             starts_with "Email found: " o = false).
  { intros [[] msg] o st' H; simpl in H; injection H as <-; reflexivity. }
  destruct (raise_for_status r) as [[]|e] eqn:Hs.
  2: { simpl in Hout.
       destruct e as [[] msg]; simpl in Hout; injection Hout as <-;
         vm_compute in Hstart; discriminate Hstart. }
  destruct (json_ r) as [data|e] eqn:Hj.
  2: { simpl in Hout.
       destruct e as [[] msg]; simpl in Hout; injection Hout as <-;
         vm_compute in Hstart; discriminate Hstart. }
  destruct (has_email data) as [[]|e] eqn:Hh.
  3: { simpl in Hout.
       destruct e as [[] msg]; simpl in Hout; injection Hout as <-;
         vm_compute in Hstart; discriminate Hstart. }
  2: { simpl in Hout. injection Hout as <-. vm_compute in Hstart.
       discriminate Hstart. }
  destruct (has_email_true data Hh) as (person & email & Hp & He & Htr).
  rewrite Hp, He in Hout. simpl in Hout. injection Hout as <-.
  exists k, r, data, person, email. repeat split; try assumption.
  now apply raise_for_status_returns.
Qed.

Lemma X22_found_only_if_given_witness :
  exists k r data person email,
    APOLLO_API_KEY (globals (Example.with_key "secret")) = Some k /\
    post Example.ext api_endpoint (linkedin_params "https://www.linkedin.com/in/ann")
      (request_headers k) = Responded r /\
    (status_code r < 400 \/ 600 <= status_code r) /\
    json_ r = Return data /\
    Py.getitem data "person" = Return person /\
    Py.getitem person "email" = Return email /\
    Py.truth email = true /\
    "Email found: a@b.com" = "Email found: " +:+ str Example.ext email.
Proof.
  apply (X22_found_only_if_given Example.ext
           (linkedin_params "https://www.linkedin.com/in/ann")
           (Example.with_key "secret") "Email found: a@b.com"); reflexivity.
Defined.

(** X23.  The enrichment tools touch nothing of the process: after either
    tool the files, the environment and the module globals are what they
    were, whether the call returned or raised; in particular the key that
    the next call will use is the same. *)
Theorem X23_enrichment_leaves_state (ext : External) (st : State)
  (first last company url : string) :
  let t1 := final (find_email_by_name_and_company ext first last company st) in
  let t2 := final (find_email_by_linkedin ext url st) in
  (files t1 = files st /\ environ t1 = environ st /\ globals t1 = globals st) /\
  (files t2 = files st /\ environ t2 = environ st /\ globals t2 = globals st).
Proof.
  unfold find_email_by_name_and_company, find_email_by_linkedin, final.
  destruct (Py.truth_opt (APOLLO_API_KEY (globals st))) eqn:Hkey.
  - destruct (enrich_with_key ext (name_and_company_params first last company) st Hkey)
      as [o1 H1].
    destruct (enrich_with_key ext (linkedin_params url) st Hkey) as [o2 H2].
    cbv zeta. rewrite H1, H2. simpl. auto.
  - cbv zeta. rewrite !enrich_without_key by exact Hkey. simpl. auto.
Qed.

(* ===================================================================== *)
(** * More about loading the module *)
(* ===================================================================== *)

(** X24.  Where the key comes from: a variable of the process environment
    wins over the [.env] file, which is used only when the environment has
    no such variable.  So an empty [APOLLO_API_KEY] in the environment hides
    a key given in [.env], and both tools then raise the precondition
    error.  Loading changes no file and keeps every variable that was
    set. *)
Theorem X24_key_source (ext : External) (st0 : State)
  (first last company url : string) :
  let loaded := final (module_load ext st0) in
  (forall v, environ st0 !! "APOLLO_API_KEY" = Some v ->
             APOLLO_API_KEY (globals loaded) = Some v) /\
  (environ st0 !! "APOLLO_API_KEY" = None ->
   APOLLO_API_KEY (globals loaded) = dotenv ext !! "APOLLO_API_KEY") /\
  (environ st0 !! "APOLLO_API_KEY" = Some EmptyString ->
   find_email_by_name_and_company ext first last company loaded
     = (Raise KEY_NOT_SET, loaded) /\
   find_email_by_linkedin ext url loaded = (Raise KEY_NOT_SET, loaded)) /\
  files loaded = files st0 /\
  (forall name v, environ st0 !! name = Some v -> environ loaded !! name = Some v).
Proof.
  intros loaded. subst loaded. unfold final. rewrite module_load_runs. simpl.
  split; [|split; [|split; [|split]]].
  - intros v H. now apply lookup_union_Some_l.
  - intros H. now apply lookup_union_r.
  - intros H.
    assert (Hkey : (environ st0 ∪ dotenv ext) !! "APOLLO_API_KEY" = Some EmptyString)
      by now apply lookup_union_Some_l.
    unfold find_email_by_name_and_company, find_email_by_linkedin.
    split; apply enrich_without_key; simpl; now rewrite Hkey.
  - reflexivity.
  - intros name v H. now apply lookup_union_Some_l.
Qed.

Lemma X24_key_source_witness :
  find_email_by_linkedin Scenario.usual "https://www.linkedin.com/in/ann"
    (final (module_load Scenario.usual Scenario.empty_key_env))
  = (Raise KEY_NOT_SET, final (module_load Scenario.usual Scenario.empty_key_env)) /\
  dotenv Scenario.usual !! "APOLLO_API_KEY" = Some "key-from-dotenv".
Proof.
  split; [|reflexivity].
  refine (proj2 (proj1 (proj2 (proj2 (X24_key_source Scenario.usual
            Scenario.empty_key_env "Ann" "Lee" "Acme"
            "https://www.linkedin.com/in/ann"))) _)).
  reflexivity.
Defined.
